(** * Smart Meal: the recipe preprocessing script

    A shallow embedding of [scripts/preprocess_recipes.py] and the
    properties its specification states about it.

    A Python [str] is a [string] whose characters are read as the code
    points 0..255; the classes [\d], [\s], [\w] and the case mapping of
    [str.lower] are the ones Python 3 uses on that range.  Integers are
    [Z] (Python integers are unbounded); [int] raises ValueError on more
    digits than CPython's default limit, and a raised exception is the
    result [None].  A dictionary is a list of pairs in insertion order, which
    is the order in which Python iterates it.  The module [random] is a
    sequence of raw draws that the generator consumes one by one. *)

From Stdlib Require Import ZArith NArith List String Ascii Bool Lia.
From Stdlib Require Import Sorting.Sorted Sorting.Permutation.
From Stdlib Require Import Numbers.DecimalString Numbers.DecimalNat.
Import ListNotations.

Open Scope string_scope.
Open Scope Z_scope.

(** ** Python strings *)

Module PyStr.

Definition code (c : ascii) : N := N_of_ascii c.

Definition in_range (lo hi : N) (c : ascii) : bool :=
  ((lo <=? code c) && (code c <=? hi))%N.

(** [str.isspace] on one character, which is also the class [\s] of
    [re] and what [str.strip()] removes. *)
Definition is_space (c : ascii) : bool :=
  in_range 9 13 c || in_range 28 32 c
  || (code c =? 133)%N || (code c =? 160)%N.

(** The class [\d]. *)
Definition is_decimal (c : ascii) : bool := in_range 48 57 c.

Definition is_lower_az (c : ascii) : bool := in_range 97 122 c.
Definition is_upper_az (c : ascii) : bool := in_range 65 90 c.

(** The class [\w]: [str.isalnum] or the underscore. *)
Definition is_word (c : ascii) : bool :=
  is_decimal c || is_upper_az c || is_lower_az c || (code c =? 95)%N
  || (code c =? 170)%N || (code c =? 181)%N || (code c =? 186)%N
  || in_range 178 179 c || (code c =? 185)%N || in_range 188 190 c
  || in_range 192 214 c || in_range 216 246 c || in_range 248 255 c.

(** [str.lower] on one character. *)
Definition lower_char (c : ascii) : ascii :=
  if is_upper_az c || in_range 192 214 c || in_range 216 222 c
  then ascii_of_N (code c + 32)
  else c.

Fixpoint lower (s : string) : string :=
  match s with
  | EmptyString => EmptyString
  | String c r => String (lower_char c) (lower r)
  end.

(** [str.upper] on one character of the ASCII range; the script applies
    it (through [str.capitalize]) to its fixed cuisine names only. *)
Definition upper_char (c : ascii) : ascii :=
  if is_lower_az c then ascii_of_N (code c - 32) else c.

Definition capitalize (s : string) : string :=
  match s with
  | EmptyString => EmptyString
  | String c r => String (upper_char c) (lower r)
  end.

Fixpoint filter (p : ascii -> bool) (s : string) : string :=
  match s with
  | EmptyString => EmptyString
  | String c r => if p c then String c (filter p r) else filter p r
  end.

Fixpoint forallb (p : ascii -> bool) (s : string) : bool :=
  match s with
  | EmptyString => true
  | String c r => p c && forallb p r
  end.

Definition is_empty (s : string) : bool :=
  match s with EmptyString => true | _ => false end.

Fixpoint lstrip (s : string) : string :=
  match s with
  | EmptyString => EmptyString
  | String c r => if is_space c then lstrip r else s
  end.

Fixpoint rstrip (s : string) : string :=
  match s with
  | EmptyString => EmptyString
  | String c r =>
      let r' := rstrip r in
      if is_space c && is_empty r' then EmptyString else String c r'
  end.

(** [s.strip()] *)
Definition strip (s : string) : string := rstrip (lstrip s).

(** [needle in hay] *)
Fixpoint str_in (needle hay : string) : bool :=
  prefix needle hay
  || match hay with
     | EmptyString => false
     | String _ r => str_in needle r
     end.

(** [any(w in text for w in words)] *)
Definition any_in (words : list string) (text : string) : bool :=
  existsb (fun w => str_in w text) words.

(** [sep.join(parts)] *)
Definition join (sep : string) (parts : list string) : string :=
  String.concat sep parts.

Definition digit_value (c : ascii) : Z := Z.of_N (code c) - 48.

(** The number that a string of decimal digits is converted to, read
    left to right. *)
Fixpoint int_from (acc : Z) (s : string) : Z :=
  match s with
  | EmptyString => acc
  | String c r => int_from (10 * acc + digit_value c) r
  end.

Definition digits_to_Z (s : string) : Z := int_from 0 s.

(** [sys.int_info.default_max_str_digits]: the most digit characters that
    CPython converts between [str] and [int]; the script leaves the default
    in place. *)
Definition max_str_digits : Z := 4300.

(** [int(s)] for a string of decimal digits; [None] is the ValueError
    raised when [s] has more than [max_str_digits] characters (leading
    zeros count). *)
Definition int (s : string) : option Z :=
  if max_str_digits <? Z.of_nat (String.length s) then None
  else Some (digits_to_Z s).

End PyStr.

Import PyStr.

(** ** Classifiers *)

(** [determine_difficulty] *)
Definition determine_difficulty (steps_count total_time : Z) : string :=
  if (steps_count <=? 5) && (total_time <=? 30) then "Easy"
  else if (steps_count <=? 10) && (total_time <=? 60) then "Medium"
  else "Hard".

(** The search text [" ".join(keywords).lower() + " " + name.lower()]. *)
Definition search_text (keywords : list string) (name : string) : string :=
  lower (join " " keywords) ++ " " ++ lower name.

Definition breakfast_words : list string :=
  ["breakfast"; "pancake"; "waffle"; "cereal"; "oatmeal"].
Definition dinner_words : list string := ["dinner"; "main"; "entree"].
Definition snack_words : list string := ["snack"; "appetizer"; "dessert"].

(** [determine_meal_type] *)
Definition determine_meal_type (keywords : list string) (name : string)
  : string :=
  let text := search_text keywords name in
  if any_in breakfast_words text then "Breakfast"
  else if any_in dinner_words text then "Dinner"
  else if any_in snack_words text then "Snack"
  else "Lunch".

(** The dictionary [cuisines] of [extract_cuisine]; a Python dict is
    iterated in insertion order. *)
Definition cuisines : list (string * list string) :=
  [ ("indian", ["indian"; "curry"; "masala"; "tandoori"; "biryani"]);
    ("chinese", ["chinese"; "szechuan"; "cantonese"; "wok"]);
    ("italian", ["italian"; "pasta"; "pizza"; "risotto"]);
    ("mexican", ["mexican"; "taco"; "burrito"; "enchilada"; "salsa"]);
    ("thai", ["thai"; "pad thai"; "curry thai"]) ].

(** The loop [for cuisine, keywords_list in cuisines.items()]. *)
Fixpoint first_cuisine (table : list (string * list string)) (text : string)
  : string :=
  match table with
  | [] => "international"
  | (cuisine, keywords_list) :: rest =>
      if any_in keywords_list text then cuisine
      else first_cuisine rest text
  end.

(** [extract_cuisine] *)
Definition extract_cuisine (keywords : list string) (name : string)
  : string :=
  first_cuisine cuisines (search_text keywords name).

Definition meat_keywords : list string :=
  ["chicken"; "beef"; "pork"; "lamb"; "meat"; "fish"; "seafood"].
Definition dairy_keywords : list string :=
  ["milk"; "cheese"; "butter"; "cream"; "egg"].

Definition ingredients_text (ingredients : list string) : string :=
  lower (join " " ingredients).
Definition keywords_text (keywords : list string) : string :=
  lower (join " " keywords).

Definition has_meat (ingredients : list string) : bool :=
  any_in meat_keywords (ingredients_text ingredients).
Definition has_dairy (ingredients : list string) : bool :=
  any_in dairy_keywords (ingredients_text ingredients).

(** [tags.append(t)] under [if cond]. *)
Definition append_if (cond : bool) (t : string) (tags : list string)
  : list string :=
  if cond then tags ++ [t] else tags.

(** [extract_dietary_tags] *)
Definition extract_dietary_tags (ingredients keywords : list string)
  : list string :=
  let kt := keywords_text keywords in
  let tags := [] in
  let tags := append_if (negb (has_meat ingredients)) "vegetarian" tags in
  let tags :=
    append_if (negb (has_meat ingredients) && negb (has_dairy ingredients))
      "vegan" tags in
  let tags :=
    append_if (str_in "gluten-free" kt || str_in "gluten free" kt)
      "gluten-free" tags in
  let tags :=
    append_if (str_in "keto" kt || str_in "low-carb" kt || str_in "low carb" kt)
      "keto" tags in
  let tags :=
    append_if (str_in "low-carb" kt || str_in "low carb" kt) "low-carb" tags in
  tags.

(** ** Field normaliser *)

(** The longest prefix of [s] that [\d+] matches. *)
Fixpoint take_digits (s : string) : string :=
  match s with
  | EmptyString => EmptyString
  | String c r => if is_decimal c then String c (take_digits r) else EmptyString
  end.

(** [re.findall(r'(\d+)', s)]: the maximal runs of decimal digits, from
    left to right.  [inside] says that the character before [s] belongs
    to the run already reported. *)
Fixpoint findall_digits (inside : bool) (s : string) : list string :=
  match s with
  | EmptyString => []
  | String c r =>
      if is_decimal c then
        if inside then findall_digits true r
        else take_digits s :: findall_digits true r
      else findall_digits false r
  end.

(** [parse_time]; the argument [None] is a missing value ([pd.isna]), the
    result [None] is the ValueError that [int(matches[0])] raises and the
    function does not catch. *)
Definition parse_time (time_str : option string) : option Z :=
  match time_str with
  | None => Some 0
  | Some s =>
      if is_empty s then Some 0
      else
        match findall_digits false s with
        | [] => Some 0
        | m :: _ =>
            match int m with
            | None => None
            | Some minutes =>
                if str_in "hour" (lower s) || str_in "hr" (lower s)
                then Some (minutes * 60)
                else Some minutes
            end
        end
  end.

(** The class [[a-zA-Z0-9\s]], whose complement the first substitution
    deletes. *)
Definition plain_char (c : ascii) : bool :=
  is_lower_az c || is_upper_az c || is_decimal c || is_space c.

Definition remove_special (s : string) : string := PyStr.filter plain_char s.

Definition is_word_opt (c : option ascii) : bool :=
  match c with
  | Some x => is_word x
  | None => false
  end.

Definition head (s : string) : option ascii :=
  match s with
  | EmptyString => None
  | String c _ => Some c
  end.

(** [\b] between the character [before] and the character [after]; [None]
    is the start or the end of the string. *)
Definition word_boundary (before after : option ascii) : bool :=
  xorb (is_word_opt before) (is_word_opt after).

(** The literal [lit] at the head of [s], followed by [\b]; [prev] is the
    character before [s]. *)
Fixpoint literal_then_boundary (prev : option ascii) (lit s : string) : bool :=
  match lit with
  | EmptyString => word_boundary prev (head s)
  | String x lit' =>
      match s with
      | EmptyString => false
      | String c s' =>
          Ascii.eqb x c && literal_then_boundary (Some c) lit' s'
      end
  end.

Definition articles : list string := ["a"; "an"; "the"].

(** The alternatives of [(a|an|the)] are tried in order; the length of the
    first one that matches up to the closing [\b]. *)
Fixpoint first_alternative (alts : list string) (prev : option ascii)
  (s : string) : option nat :=
  match alts with
  | [] => None
  | lit :: rest =>
      if literal_then_boundary prev lit s then Some (String.length lit)
      else first_alternative rest prev s
  end.

(** A match of [\b(a|an|the)\b] that starts at the head of [s]. *)
Definition match_article (prev : option ascii) (s : string) : option nat :=
  if word_boundary prev (head s) then first_alternative articles prev s
  else None.

(** [re.sub(r'\b(a|an|the)\b', '', s)], scanning from left to right: [prev]
    is the character before [s] and [skip] the number of characters of [s]
    that the match in progress still covers. *)
Fixpoint sub_articles (prev : option ascii) (skip : nat) (s : string)
  : string :=
  match s with
  | EmptyString => EmptyString
  | String c r =>
      match skip with
      | S k => sub_articles (Some c) k r
      | O =>
          match match_article prev s with
          | Some n => sub_articles (Some c) (Nat.pred n) r
          | None => String c (sub_articles (Some c) 0 r)
          end
      end
  end.

Definition remove_articles (s : string) : string := sub_articles None 0 s.

(** [clean_ingredient_name] *)
Definition clean_ingredient_name (ingredient : string) : string :=
  let cleaned := strip (remove_special (lower ingredient)) in
  let cleaned := strip (remove_articles cleaned) in
  cleaned.

(** ** The random source *)

Module Rand.

(** The random source is the sequence of raw draws it will produce;
    computations thread it as a state. *)
Definition source : Type := nat -> nat.

Definition M (A : Type) : Type := source -> A * source.

Definition ret {A : Type} (a : A) : M A := fun src => (a, src).

Definition bind {A B : Type} (m : M A) (k : A -> M B) : M B :=
  fun src => let (a, src') := m src in k a src'.

(** [random._randbelow(n)] *)
Definition randbelow (n : nat) : M nat :=
  fun src => (Nat.modulo (src 0%nat) n, fun k => src (S k)).

Module Notations.
Notation "x <- m ;; k" := (bind m (fun x => k))
  (at level 61, m at next level, right associativity).
End Notations.
Import Notations.

(** [random.choice(seq)] is [seq[randbelow(len(seq))]]. *)
Definition choice (seq : list string) : M string :=
  j <- randbelow (List.length seq) ;;
  ret (nth j seq EmptyString).

(** [random.randint(a, b)] is [a + randbelow(b - a + 1)]. *)
Definition randint (a b : Z) : M Z :=
  j <- randbelow (Z.to_nat (b - a + 1)) ;;
  ret (a + Z.of_nat j).

Fixpoint set_nth (j : nat) (x : string) (l : list string) : list string :=
  match l, j with
  | [], _ => []
  | _ :: t, O => x :: t
  | h :: t, S j' => h :: set_nth j' x t
  end.

(** The selection loop of [random.sample] on a small population: the
    [k] items are drawn from a shrinking pool. *)
Fixpoint sample_from (k n : nat) (pool result : list string)
  : M (list string) :=
  match k with
  | O => ret result
  | S k' =>
      j <- randbelow n ;;
      sample_from k' (Nat.pred n)
        (set_nth j (nth (Nat.pred n) pool EmptyString) pool)
        (result ++ [nth j pool EmptyString])
  end.

(** [random.sample(population, k=k)] *)
Definition sample (population : list string) (k : Z) : M (list string) :=
  sample_from (Z.to_nat k) (List.length population) population [].

End Rand.

Import Rand.Notations.

(** ** Sample generator *)

Record Ingredient : Type := {
  ing_name : string;
  ing_quantity : Z;
  ing_unit : string;
  ing_substitutions : list string
}.

Record Instruction : Type := {
  ins_step : Z;
  ins_text : string;
  ins_timerDuration : option Z
}.

Record Nutrition : Type := {
  calories : Z;
  protein : Z;
  carbs : Z;
  fats : Z;
  fiber : Z;
  sodium : Z;
  sugar : Z
}.

Record Recipe : Type := {
  id : string;
  title : string;
  image : string;
  description : string;
  prepTime : Z;
  cookTime : Z;
  totalTime : Z;
  servings : Z;
  difficulty : string;
  mealType : string;
  cuisine : string;
  ingredients : list Ingredient;
  instructions : list Instruction;
  nutrition : Nutrition;
  dietaryTags : list string;
  videoId : option string
}.

(** [str(n)] for a natural number. *)
Definition str_of_nat (n : nat) : string :=
  NilZero.string_of_uint (Nat.to_uint n).

Fixpoint zeros (n : nat) : string :=
  match n with
  | O => EmptyString
  | S n' => String "0" (zeros n')
  end.

(** The format [{n:04d}] for a natural number: zeros on the left up to
    four characters. *)
Definition format_04d (n : nat) : string :=
  let digits := str_of_nat n in
  zeros (4 - String.length digits) ++ digits.

Definition sample_cuisines : list string :=
  ["indian"; "chinese"; "italian"; "mexican"; "thai"; "international"].
Definition sample_difficulties : list string := ["Easy"; "Medium"; "Hard"].
Definition sample_meal_types : list string :=
  ["Breakfast"; "Lunch"; "Dinner"; "Snack"].
Definition sample_tags : list string :=
  ["vegetarian"; "vegan"; "gluten-free"; "keto"; "low-carb"].

Definition sample_ingredients : list Ingredient :=
  [ {| ing_name := "ingredient1"; ing_quantity := 2; ing_unit := "cups";
       ing_substitutions := [] |};
    {| ing_name := "ingredient2"; ing_quantity := 1; ing_unit := "tbsp";
       ing_substitutions := [] |};
    {| ing_name := "ingredient3"; ing_quantity := 500; ing_unit := "g";
       ing_substitutions := [] |} ].

Definition sample_instructions : list Instruction :=
  [ {| ins_step := 1; ins_text := "Prepare all ingredients";
       ins_timerDuration := None |};
    {| ins_step := 2; ins_text := "Cook for 20 minutes";
       ins_timerDuration := Some 1200 |};
    {| ins_step := 3; ins_text := "Serve hot"; ins_timerDuration := None |} ].

(** The body of the loop of [create_sample_recipes] at index [i]; the
    draws are made in the order in which Python evaluates them. *)
Definition sample_recipe (i : nat) : Rand.M Recipe :=
  let recipe_id := "recipe_" ++ format_04d (i + 1) in
  cuisine <- Rand.choice sample_cuisines ;;
  difficulty <- Rand.choice sample_difficulties ;;
  meal_type <- Rand.choice sample_meal_types ;;
  prep_time <- Rand.randint 5 30 ;;
  cook_time <- Rand.randint 10 90 ;;
  let total_time := prep_time + cook_time in
  servings <- Rand.randint 2 6 ;;
  calories <- Rand.randint 200 800 ;;
  protein <- Rand.randint 10 50 ;;
  carbs <- Rand.randint 20 100 ;;
  fats <- Rand.randint 5 40 ;;
  fiber <- Rand.randint 2 15 ;;
  sodium <- Rand.randint 200 1500 ;;
  sugar <- Rand.randint 2 25 ;;
  k <- Rand.randint 0 2 ;;
  tags <- Rand.sample sample_tags k ;;
  Rand.ret
    {| id := recipe_id;
       title := "Sample " ++ capitalize cuisine ++ " " ++ meal_type
                ++ " Recipe " ++ str_of_nat (i + 1);
       image := "/images/placeholder-recipe.png";
       description := "A delicious " ++ cuisine ++ " " ++ lower meal_type
                      ++ " dish";
       prepTime := prep_time;
       cookTime := cook_time;
       totalTime := total_time;
       servings := servings;
       difficulty := difficulty;
       mealType := meal_type;
       cuisine := cuisine;
       ingredients := sample_ingredients;
       instructions := sample_instructions;
       nutrition := {| calories := calories; protein := protein;
                       carbs := carbs; fats := fats; fiber := fiber;
                       sodium := sodium; sugar := sugar |};
       dietaryTags := tags;
       videoId := None |}.

(** [for i in range(count)], with [todo] iterations left from index [i]. *)
Fixpoint sample_loop (todo i : nat) (sample_recipes : list Recipe)
  : Rand.M (list Recipe) :=
  match todo with
  | O => Rand.ret sample_recipes
  | S todo' =>
      recipe <- sample_recipe i ;;
      sample_loop todo' (S i) (sample_recipes ++ [recipe])
  end.

(** [create_sample_recipes]; [range(count)] is empty for a negative
    [count]. *)
Definition create_sample_recipes (count : Z) : Rand.M (list Recipe) :=
  sample_loop (Z.to_nat count) 0 [].

(** ** Statistics of [main] *)

(** The dictionary [cuisines] of [main], in insertion order. *)
Definition dict : Type := list (string * Z).

(** [d.get(k, default)] *)
Fixpoint dict_get (d : dict) (k : string) (default : Z) : Z :=
  match d with
  | [] => default
  | (k', v) :: rest => if String.eqb k' k then v else dict_get rest k default
  end.

(** [d[k] = v] *)
Fixpoint dict_set (d : dict) (k : string) (v : Z) : dict :=
  match d with
  | [] => [(k, v)]
  | (k', v') :: rest =>
      if String.eqb k' k then (k', v) :: rest
      else (k', v') :: dict_set rest k v
  end.

(** The counting loop [for recipe in recipes]. *)
Definition count_cuisines (recipes : list Recipe) : dict :=
  fold_left
    (fun d recipe =>
       dict_set d (cuisine recipe) (dict_get d (cuisine recipe) 0 + 1))
    recipes [].

(** The order [<] of Python on pairs of a string and an integer. *)
Definition item_ltb (x y : string * Z) : bool :=
  match String.compare (fst x) (fst y) with
  | Lt => true
  | Eq => snd x <? snd y
  | Gt => false
  end.

(** [sorted] is a stable sort: an item goes after the items that are not
    greater than it. *)
Fixpoint insert_item (x : string * Z) (l : list (string * Z))
  : list (string * Z) :=
  match l with
  | [] => [x]
  | y :: rest => if item_ltb x y then x :: l else y :: insert_item x rest
  end.

Definition sorted (l : list (string * Z)) : list (string * Z) :=
  fold_left (fun acc x => insert_item x acc) l [].

(** The lines printed under "Recipes by cuisine:", as pairs. *)
Definition cuisine_report (recipes : list Recipe) : list (string * Z) :=
  sorted (count_cuisines recipes).

(** * Vocabulary of the statements *)

(** [w] occurs in [t] as a contiguous substring. *)
Definition occurs (w t : string) : Prop :=
  exists a b, t = a ++ w ++ b.

(** Some word of [words] occurs in [t]. *)
Definition some_occurs (words : list string) (t : string) : Prop :=
  exists w, In w words /\ occurs w t.

(** [l1] is [l2] with some elements left out. *)
Inductive subseq {A : Type} : list A -> list A -> Prop :=
| subseq_nil : forall l, subseq [] l
| subseq_skip : forall x l1 l2, subseq l1 l2 -> subseq l1 (x :: l2)
| subseq_take : forall x l1 l2, subseq l1 l2 -> subseq (x :: l1) (x :: l2).

(** The order in which [extract_dietary_tags] considers the tags. *)
Definition tag_order : list string :=
  ["vegetarian"; "vegan"; "gluten-free"; "keto"; "low-carb"].

Definition mem (t : string) (l : list string) : bool :=
  existsb (String.eqb t) l.

(** The tag [t] when [cond] holds, and nothing otherwise. *)
Definition pick (cond : bool) (t : string) : list string :=
  if cond then [t] else [].

(** [s] has no decimal digit. *)
Definition no_digit (s : string) : Prop :=
  PyStr.forallb (fun c => negb (is_decimal c)) s = true.

(** [s] is made of decimal digits. *)
Definition all_digits (s : string) : Prop :=
  PyStr.forallb is_decimal s = true.

(** [s] does not start with a decimal digit. *)
Definition no_digit_first (s : string) : Prop :=
  match s with
  | EmptyString => True
  | String c _ => is_decimal c = false
  end.

(** The number that a string of decimal digits denotes. *)
Fixpoint decimal_value (s : string) : Z :=
  match s with
  | EmptyString => 0
  | String c r => digit_value c * 10 ^ Z.of_nat (String.length r)
                  + decimal_value r
  end.

(** [w], a lowercase word, occurs in [s] in some mix of cases. *)
Definition occurs_ci (w s : string) : Prop :=
  exists a m b, s = a ++ m ++ b /\ lower m = w.

(** The characters of a cleaned name: [a-z], [0-9] and whitespace. *)
Definition clean_char (c : ascii) : bool :=
  is_lower_az c || is_decimal c || is_space c.

(** The characters that the specification allows in a cleaned name:
    [a-z], [0-9] and the space. *)
Definition spec_char (c : ascii) : bool :=
  is_lower_az c || is_decimal c || Ascii.eqb c " ".

(** No two spaces in a row. *)
Fixpoint single_spaced (s : string) : bool :=
  match s with
  | EmptyString => true
  | String c r =>
      negb (Ascii.eqb c " " && prefix " " r) && single_spaced r
  end.

(** [s] does not start with a word character. *)
Definition starts_nonword (s : string) : Prop :=
  match s with
  | EmptyString => True
  | String c _ => is_word c = false
  end.

(** The last character of [w], or [p] when [w] is empty. *)
Fixpoint last_opt (p : option ascii) (w : string) : option ascii :=
  match w with
  | EmptyString => p
  | String c r => last_opt (Some c) r
  end.

(** The sum of the counts of a report. *)
Definition sum_counts (d : list (string * Z)) : Z :=
  fold_right (fun kv acc => snd kv + acc) 0 d.

Definition keys (d : list (string * Z)) : list string := map fst d.

(** The number of recipes of cuisine [c]. *)
Definition frequency (c : string) (recipes : list Recipe) : Z :=
  Z.of_nat (count_occ string_dec (map cuisine recipes) c).

(** Strictly before, in the order of the code points. *)
Definition key_lt (a b : string * Z) : Prop :=
  String.compare (fst a) (fst b) = Lt.

(** Not after, in the order of the code points. *)
Definition key_le (a b : string * Z) : Prop :=
  String.compare (fst a) (fst b) <> Gt.


(** An ASCII letter or digit. *)
Definition is_alnum_az (c : ascii) : bool :=
  is_lower_az c || is_upper_az c || is_decimal c.

(** Easy before Medium before Hard. *)
Definition difficulty_rank (d : string) : Z :=
  if String.eqb d "Easy" then 0
  else if String.eqb d "Medium" then 1
  else 2.

(** The fields of a sample record that are labels or constants. *)
Definition labelled (r : Recipe) : Prop :=
  In (cuisine r) sample_cuisines
  /\ In (difficulty r) sample_difficulties
  /\ In (mealType r) sample_meal_types
  /\ ingredients r = sample_ingredients
  /\ instructions r = sample_instructions
  /\ image r = "/images/placeholder-recipe.png"
  /\ videoId r = None.

(** The ranges of the numbers of a sample record. *)
Definition in_ranges (r : Recipe) : Prop :=
  5 <= prepTime r <= 30
  /\ 10 <= cookTime r <= 90
  /\ 15 <= totalTime r <= 120
  /\ 2 <= servings r <= 6
  /\ 200 <= calories (nutrition r) <= 800
  /\ 10 <= protein (nutrition r) <= 50
  /\ 20 <= carbs (nutrition r) <= 100
  /\ 5 <= fats (nutrition r) <= 40
  /\ 2 <= fiber (nutrition r) <= 15
  /\ 200 <= sodium (nutrition r) <= 1500
  /\ 2 <= sugar (nutrition r) <= 25.

(** At most two dietary tags, all different, among the five known ones. *)
Definition tagged (r : Recipe) : Prop :=
  (List.length (dietaryTags r) <= 2)%nat
  /\ NoDup (dietaryTags r)
  /\ (forall t, In t (dietaryTags r) -> In t sample_tags).

(** The title and the description of the record of rank [k] repeat its
    cuisine and its meal type. *)
Definition described (k : nat) (r : Recipe) : Prop :=
  title r = "Sample " ++ capitalize (cuisine r) ++ " " ++ mealType r
            ++ " Recipe " ++ str_of_nat k
  /\ description r = "A delicious " ++ cuisine r ++ " " ++ lower (mealType r)
                     ++ " dish".

(** A keyword of one piece: not empty and without a space. *)
Definition one_word (w : string) : Prop :=
  w <> "" /\ PyStr.forallb (fun c => negb (Ascii.eqb c " ")) w = true.

(** What [main] prints as statistics: the total and the lines of the
    report, for the fifty recipes it generates. *)
Definition main_statistics (src : Rand.source) : Z * list (string * Z) :=
  let recipes := fst (create_sample_recipes 50 src) in
  (Z.of_nat (List.length recipes), cuisine_report recipes).

(** The character [c], [n] times. *)
Fixpoint copies (n : nat) (c : ascii) : string :=
  match n with
  | O => EmptyString
  | S n' => String c (copies n' c)
  end.

(** The strings of [l] one after the other, with one space between two
    neighbours. *)
Fixpoint spaced (l : list string) : string :=
  match l with
  | [] => EmptyString
  | x :: rest =>
      match rest with
      | [] => x
      | _ :: _ => x ++ " " ++ spaced rest
      end
  end.

(** * Properties *)

(** ** Substrings *)

Lemma append_nil_r (s : string) : s ++ "" = s.
Proof. induction s; simpl; congruence. Qed.

Lemma append_assoc (a b c : string) : (a ++ b) ++ c = a ++ b ++ c.
Proof. induction a; simpl; congruence. Qed.

Lemma prefix_iff (w t : string) :
  prefix w t = true <-> exists b, t = w ++ b.
Proof.
  revert t; induction w as [|x w IH]; intros t.
  - destruct t; simpl; split; eauto.
  - destruct t as [|c t]; simpl.
    + split; [discriminate | intros [b Hb]; discriminate].
    + destruct (ascii_dec x c) as [->|Hne].
      * rewrite IH. split; intros [b Hb]; exists b; congruence.
      * split; [discriminate | intros [b Hb]; congruence].
Qed.

Lemma str_in_iff (w t : string) : str_in w t = true <-> occurs w t.
Proof.
  induction t as [|c t IH].
  - change (str_in w "") with (prefix w "" || false).
    rewrite orb_false_r, prefix_iff. split.
    + intros [b Hb]. exists "", b. exact Hb.
    + intros [a [b Hb]]. destruct a; simpl in Hb; [eauto | discriminate].
  - change (str_in w (String c t))
      with (prefix w (String c t) || str_in w t).
    rewrite orb_true_iff, IH, prefix_iff. split.
    + intros [[b Hb] | [a [b Hb]]].
      * exists "", b. exact Hb.
      * exists (String c a), b. simpl. congruence.
    + intros [a [b Hb]]. destruct a as [|x a]; simpl in Hb.
      * left. eauto.
      * right. exists a, b. congruence.
Qed.

Lemma any_in_iff (words : list string) (t : string) :
  any_in words t = true <-> some_occurs words t.
Proof.
  unfold any_in, some_occurs. rewrite existsb_exists.
  split; intros [w [Hw Ho]]; exists w; split; auto; now apply str_in_iff.
Qed.

Lemma any_in_false (words : list string) (t : string) :
  any_in words t = false <-> ~ some_occurs words t.
Proof.
  rewrite <- any_in_iff. destruct (any_in words t); split; congruence.
Qed.

Lemma str_in_false (w t : string) : str_in w t = false <-> ~ occurs w t.
Proof.
  rewrite <- str_in_iff. destruct (str_in w t); split; congruence.
Qed.

(** ** Difficulty *)

(** C4: for every pair of integers, [determine_difficulty] is Easy when
    steps <= 5 and time <= 30, otherwise Medium when steps <= 10 and
    time <= 60, otherwise Hard; and (12, 90) is Hard. *)
Theorem determine_difficulty_thresholds :
  (forall steps time : Z,
      (steps <= 5 /\ time <= 30 -> determine_difficulty steps time = "Easy")
      /\ (~ (steps <= 5 /\ time <= 30) -> steps <= 10 /\ time <= 60 ->
          determine_difficulty steps time = "Medium")
      /\ (~ (steps <= 5 /\ time <= 30) -> ~ (steps <= 10 /\ time <= 60) ->
          determine_difficulty steps time = "Hard"))
  /\ determine_difficulty 12 90 = "Hard".
Proof.
  split; [|reflexivity].
  intros steps time. unfold determine_difficulty.
  destruct (Z.leb_spec steps 5), (Z.leb_spec time 30),
    (Z.leb_spec steps 10), (Z.leb_spec time 60); simpl;
    repeat split; intros; try reflexivity; lia.
Qed.

Lemma determine_difficulty_thresholds_witness :
  determine_difficulty 3 20 = "Easy"
  /\ determine_difficulty 7 45 = "Medium"
  /\ determine_difficulty 3 200 = "Hard".
Proof.
  destruct determine_difficulty_thresholds as [H _].
  split; [|split].
  - apply (proj1 (H 3 20)). lia.
  - apply (proj1 (proj2 (H 7 45))); lia.
  - apply (proj2 (proj2 (H 3 200))); lia.
Defined.

(** ** Meal type *)



(** ** Cuisine *)

Lemma first_cuisine_skip (before : list (string * list string))
  (rest : list (string * list string)) (text : string) :
  (forall c kws, In (c, kws) before -> ~ some_occurs kws text) ->
  first_cuisine (before ++ rest) text = first_cuisine rest text.
Proof.
  induction before as [|[c kws] before IH]; intros H; simpl; [reflexivity|].
  assert (Hc : any_in kws text = false)
    by (apply any_in_false; apply (H c); simpl; auto).
  rewrite Hc. apply IH. intros c' kws' Hin. apply (H c' kws'). simpl; auto.
Qed.

Lemma join_spaced (l : list string) : join " " l = spaced l.
Proof.
  unfold join. induction l as [|x l IH]; [reflexivity|].
  destruct l as [|y l]; [reflexivity|].
  change (String.concat " " (x :: y :: l))
    with (x ++ " " ++ String.concat " " (y :: l)).
  now rewrite IH.
Qed.

(** C6: the table is tried in the order indian, chinese, italian,
    mexican, thai on the lowercased text of the keywords, put one after
    the other with a space between them, a space and the name; the first
    cuisine one of whose keywords occurs in the text is returned, and
    "international" when there is none; "Chicken Tikka Masala" is indian,
    a keyword decides as the name does, and before it. *)
Theorem extract_cuisine_first_match :
  map fst cuisines = ["indian"; "chinese"; "italian"; "mexican"; "thai"]
  /\ (forall (keywords : list string) (name : string),
        let text := lower (spaced keywords) ++ " " ++ lower name in
        (forall before c kws after,
            cuisines = (before ++ (c, kws) :: after)%list ->
            (forall c' kws', In (c', kws') before ->
                             ~ some_occurs kws' text) ->
            some_occurs kws text ->
            extract_cuisine keywords name = c)
        /\ ((forall c kws, In (c, kws) cuisines -> ~ some_occurs kws text) ->
            extract_cuisine keywords name = "international"))
  /\ extract_cuisine [] "Chicken Tikka Masala" = "indian"
  /\ extract_cuisine ["Quick"; "ITALIAN"] "Dinner" = "italian"
  /\ extract_cuisine ["Wok special"] "Salsa dip" = "chinese"
  /\ extract_cuisine ["ta"; "co"] "Soup" = "international".
Proof.
  split; [reflexivity|]. split; [|repeat split].
  intros keywords name text. unfold extract_cuisine.
  assert (Htext : search_text keywords name = text)
    by (unfold search_text, text; now rewrite join_spaced).
  rewrite Htext. split.
  - intros before c kws after Heq Hbefore Hhit.
    rewrite Heq, first_cuisine_skip by exact Hbefore.
    simpl. apply any_in_iff in Hhit. now rewrite Hhit.
  - intros Hnone.
    rewrite <- (app_nil_r cuisines), first_cuisine_skip by exact Hnone.
    reflexivity.
Qed.

Lemma extract_cuisine_first_match_witness :
  extract_cuisine ["Easy"; "Wok special"] "Salsa dip" = "chinese".
Proof.
  destruct extract_cuisine_first_match as [_ [H _]].
  apply (proj1 (H ["Easy"; "Wok special"] "Salsa dip")
           [("indian", ["indian"; "curry"; "masala"; "tandoori"; "biryani"])]
           "chinese" ["chinese"; "szechuan"; "cantonese"; "wok"]
           [("italian", ["italian"; "pasta"; "pizza"; "risotto"]);
            ("mexican", ["mexican"; "taco"; "burrito"; "enchilada"; "salsa"]);
            ("thai", ["thai"; "pad thai"; "curry thai"])]).
  - reflexivity.
  - intros c' kws' [Heq | []]. inversion Heq; subst.
    apply any_in_false. reflexivity.
  - exists "wok". split; [simpl; auto|].
    exists "easy ", " special salsa dip". reflexivity.
Defined.

(** ** Dietary tags *)

(** The tags that [extract_dietary_tags] returns, from the five tests it
    makes. *)
Lemma extract_dietary_tags_closed_form (ingredients keywords : list string) :
  let kt := keywords_text keywords in
  let carb := str_in "low-carb" kt || str_in "low carb" kt in
  extract_dietary_tags ingredients keywords
  = (pick (negb (has_meat ingredients)) "vegetarian"
     ++ pick (negb (has_meat ingredients) && negb (has_dairy ingredients))
          "vegan"
     ++ pick (str_in "gluten-free" kt || str_in "gluten free" kt) "gluten-free"
     ++ pick (str_in "keto" kt || carb) "keto"
     ++ pick carb "low-carb")%list.
Proof.
  intros kt carb. unfold extract_dietary_tags. fold kt.
  rewrite <- orb_assoc. fold carb.
  destruct (has_meat ingredients), (has_dairy ingredients),
    (str_in "gluten-free" kt || str_in "gluten free" kt),
    (str_in "keto" kt), carb; reflexivity.
Qed.

Lemma picked_tags (v g f k l : bool) :
  let tags := (pick v "vegetarian" ++ pick g "vegan" ++ pick f "gluten-free"
               ++ pick k "keto" ++ pick l "low-carb")%list in
  (mem "vegetarian" tags = v /\ mem "vegan" tags = g
   /\ mem "gluten-free" tags = f /\ mem "keto" tags = k
   /\ mem "low-carb" tags = l)
  /\ tags = List.filter (fun t => mem t tags) tag_order
  /\ NoDup tags
  /\ subseq tags tag_order.
Proof.
  destruct v, g, f, k, l; cbv zeta; simpl pick; simpl app;
    (split; [repeat split | split; [reflexivity | split]]);
    repeat first
      [ apply NoDup_nil
      | apply NoDup_cons;
        [ simpl; intuition discriminate | ]
      | apply subseq_nil
      | apply subseq_take
      | apply subseq_skip ].
Qed.

Lemma mem_iff (t : string) (l : list string) : mem t l = true <-> In t l.
Proof.
  unfold mem. rewrite existsb_exists. split.
  - intros [x [Hx He]]. apply String.eqb_eq in He. now subst.
  - intros H. exists t. split; [exact H | apply String.eqb_refl].
Qed.



(** C9: for all ingredient and keyword lists the tags are a subsequence
    without duplicates of vegetarian, vegan, gluten-free, keto, low-carb,
    and "vegan" never comes without "vegetarian". *)
Theorem extract_dietary_tags_ordered_subset :
  forall ingredients keywords : list string,
    let tags := extract_dietary_tags ingredients keywords in
    subseq tags ["vegetarian"; "vegan"; "gluten-free"; "keto"; "low-carb"]
    /\ NoDup tags
    /\ (In "vegan" tags -> In "vegetarian" tags).
Proof.
  intros ingredients keywords tags.
  pose proof (extract_dietary_tags_closed_form ingredients keywords) as Hcf.
  cbv zeta in Hcf. fold tags in Hcf.
  set (kt := keywords_text keywords) in *.
  set (carb := str_in "low-carb" kt || str_in "low carb" kt) in *.
  destruct (picked_tags (negb (has_meat ingredients))
              (negb (has_meat ingredients) && negb (has_dairy ingredients))
              (str_in "gluten-free" kt || str_in "gluten free" kt)
              (str_in "keto" kt || carb) carb)
    as [[Hv [Hg _]] [_ [Hnd Hsub]]].
  cbv zeta in Hv, Hg, Hnd, Hsub. rewrite <- Hcf in *.
  split; [exact Hsub | split; [exact Hnd|]].
  rewrite <- !mem_iff, Hv, Hg, andb_true_iff. tauto.
Qed.

Lemma extract_dietary_tags_ordered_subset_witness :
  In "vegetarian" (extract_dietary_tags ["tofu"; "rice"] ["keto"]).
Proof.
  apply (extract_dietary_tags_ordered_subset ["tofu"; "rice"] ["keto"]).
  simpl. auto.
Defined.

(** ** Time strings *)

Lemma lower_app (a b : string) : lower (a ++ b) = lower a ++ lower b.
Proof. induction a; simpl; congruence. Qed.

Lemma lower_app_inv (s x y : string) :
  lower s = x ++ y ->
  exists s1 s2, s = s1 ++ s2 /\ lower s1 = x /\ lower s2 = y.
Proof.
  revert s; induction x as [|c x IH]; intros s H.
  - exists "", s. auto.
  - destruct s as [|d s]; [discriminate|].
    simpl in H. injection H as Hc Hr.
    destruct (IH s Hr) as [s1 [s2 [-> [H1 H2]]]].
    exists (String d s1), s2. simpl. rewrite Hc, H1. auto.
Qed.

Lemma str_in_lower_iff (w s : string) :
  str_in w (lower s) = true <-> occurs_ci w s.
Proof.
  rewrite str_in_iff. split.
  - intros [a' [b' H]].
    destruct (lower_app_inv _ _ _ H) as [a [t [-> [_ Ht]]]].
    destruct (lower_app_inv _ _ _ Ht) as [m [b [-> [Hm _]]]].
    now exists a, m, b.
  - intros [a [m [b [-> Hm]]]].
    exists (lower a), (lower b). now rewrite !lower_app, Hm.
Qed.

Lemma findall_digits_none (inside : bool) (s : string) :
  no_digit s -> findall_digits inside s = [].
Proof.
  unfold no_digit. revert inside; induction s as [|c s IH]; intros inside H.
  - reflexivity.
  - simpl in H. apply andb_true_iff in H as [Hc Hs].
    apply negb_true_iff in Hc. simpl. rewrite Hc. now apply IH.
Qed.

Lemma findall_digits_skip (pre t : string) :
  no_digit pre ->
  findall_digits false (pre ++ t) = findall_digits false t.
Proof.
  unfold no_digit. induction pre as [|c pre IH]; intros H.
  - reflexivity.
  - simpl in H. apply andb_true_iff in H as [Hc Hs].
    apply negb_true_iff in Hc. simpl. rewrite Hc. now apply IH.
Qed.

Lemma take_digits_run (run post : string) :
  all_digits run -> no_digit_first post -> take_digits (run ++ post) = run.
Proof.
  unfold all_digits. induction run as [|c run IH]; intros Hr Hp.
  - destruct post as [|d post]; [reflexivity|].
    simpl in *. now rewrite Hp.
  - simpl in Hr. apply andb_true_iff in Hr as [Hc Hr].
    simpl. rewrite Hc. f_equal. now apply IH.
Qed.

Lemma findall_digits_first (pre run post : string) :
  no_digit pre -> run <> "" -> all_digits run -> no_digit_first post ->
  exists others,
    findall_digits false (pre ++ run ++ post) = run :: others.
Proof.
  intros Hpre Hne Hrun Hpost. rewrite findall_digits_skip by exact Hpre.
  destruct run as [|c run]; [congruence|].
  pose proof (take_digits_run _ _ Hrun Hpost) as Htake.
  unfold all_digits in Hrun. simpl in Hrun.
  apply andb_true_iff in Hrun as [Hc _].
  change (String c run ++ post) with (String c (run ++ post)) in *.
  cbn [findall_digits]. rewrite Hc, Htake. eauto.
Qed.

Lemma int_from_value (acc : Z) (s : string) :
  int_from acc s = acc * 10 ^ Z.of_nat (String.length s) + decimal_value s.
Proof.
  revert acc; induction s as [|c s IH]; intros acc.
  - simpl. lia.
  - cbn [int_from decimal_value String.length]. rewrite IH.
    rewrite Nat2Z.inj_succ, Z.pow_succ_r by lia. ring.
Qed.

Lemma int_value (s : string) : digits_to_Z s = decimal_value s.
Proof. unfold digits_to_Z. rewrite int_from_value. lia. Qed.

Lemma int_within_limit (s : string) :
  Z.of_nat (String.length s) <= 4300 -> int s = Some (decimal_value s).
Proof.
  intros H. unfold int, max_str_digits.
  destruct (Z.ltb_spec 4300 (Z.of_nat (String.length s))); [lia|].
  now rewrite int_value.
Qed.

Lemma int_over_limit (s : string) :
  4300 < Z.of_nat (String.length s) -> int s = None.
Proof.
  intros H. unfold int, max_str_digits.
  destruct (Z.ltb_spec 4300 (Z.of_nat (String.length s))); [reflexivity|lia].
Qed.

(** Every string either has no digit or splits around its first run of
    digits. *)
Lemma first_run_exists (s : string) :
  no_digit s
  \/ exists pre run post,
      s = pre ++ run ++ post /\ no_digit pre /\ run <> ""
      /\ all_digits run /\ no_digit_first post.
Proof.
  induction s as [|c s IH].
  - left. reflexivity.
  - destruct (is_decimal c) eqn:Hc.
    + right. exists "", (String c (take_digits s)).
      assert (Hsplit : forall t, exists post,
                 t = take_digits t ++ post
                 /\ all_digits (take_digits t) /\ no_digit_first post).
      { induction t as [|d t [post [Ht [Ha Hp]]]].
        - exists "". repeat split.
        - simpl. destruct (is_decimal d) eqn:Hd.
          + exists post. simpl. rewrite <- Ht. unfold all_digits. simpl.
            rewrite Hd. auto.
          + exists (String d t). repeat split. exact Hd. }
      destruct (Hsplit s) as [post [Hs [Ha Hp]]].
      exists post. simpl. rewrite <- Hs. repeat split; auto.
      * discriminate.
      * unfold all_digits. simpl. now rewrite Hc.
    + destruct IH as [Hn | [pre [run [post [-> H]]]]].
      * left. unfold no_digit. simpl. now rewrite Hc.
      * right. exists (String c pre), run, post.
        split; [reflexivity|]. destruct H as [Hpre H].
        split; [|exact H]. unfold no_digit. simpl. now rewrite Hc.
Qed.

(** C1, as the code has it: a missing or empty time string gives 0; a
    string without a decimal digit gives 0; otherwise, when the first run
    of decimal digits has at most 4300 digits, it is read as a number of
    minutes, times 60 exactly when the string contains "hour" or "hr" in
    any mix of cases; a first run of more than 4300 digits raises
    ValueError; with the three examples. *)
Theorem parse_time_policy :
  parse_time None = Some 0
  /\ parse_time (Some "") = Some 0
  /\ (forall s : string, no_digit s -> parse_time (Some s) = Some 0)
  /\ (forall s : string,
        no_digit s
        \/ exists pre run post,
            s = pre ++ run ++ post /\ no_digit pre /\ run <> ""
            /\ all_digits run /\ no_digit_first post)
  /\ (forall pre run post : string,
        no_digit pre -> run <> "" -> all_digits run -> no_digit_first post ->
        let s := pre ++ run ++ post in
        (Z.of_nat (String.length run) <= 4300 ->
         (occurs_ci "hour" s \/ occurs_ci "hr" s ->
          parse_time (Some s) = Some (decimal_value run * 60))
         /\ (~ (occurs_ci "hour" s \/ occurs_ci "hr" s) ->
             parse_time (Some s) = Some (decimal_value run)))
        /\ (4300 < Z.of_nat (String.length run) ->
            parse_time (Some s) = None))
  /\ parse_time (Some "45 minutes") = Some 45
  /\ parse_time (Some "2 hours") = Some 120.
Proof.
  split; [reflexivity|]. split; [reflexivity|].
  split; [|split; [exact first_run_exists|split; [|split; reflexivity]]].
  - intros s Hs. unfold parse_time.
    rewrite (findall_digits_none false s Hs). now destruct (is_empty s).
  - intros pre run post Hpre Hne Hrun Hpost s.
    destruct (findall_digits_first pre run post Hpre Hne Hrun Hpost)
      as [others Hfind].
    fold s in Hfind. unfold parse_time. rewrite Hfind.
    assert (Hs : is_empty s = false).
    { unfold s. destruct pre; [destruct run; [congruence|]|]; reflexivity. }
    rewrite Hs. split.
    + intros Hlen. rewrite (int_within_limit run Hlen).
      assert (Hmark : str_in "hour" (lower s) || str_in "hr" (lower s) = true
                      <-> occurs_ci "hour" s \/ occurs_ci "hr" s)
        by now rewrite orb_true_iff, !str_in_lower_iff.
      destruct (str_in "hour" (lower s) || str_in "hr" (lower s)).
      * split; [reflexivity|]. intros Hno. exfalso. apply Hno, Hmark.
        reflexivity.
      * split; [|reflexivity]. intros Hyes. apply Hmark in Hyes.
        discriminate.
    + intros Hlen. now rewrite (int_over_limit run Hlen).
Qed.

Lemma parse_time_policy_witness :
  parse_time (Some "about 1 Hr 30 min") = Some 60
  /\ parse_time (Some "bake 25 min") = Some 25
  /\ parse_time (Some "overnight") = Some 0.
Proof.
  destruct parse_time_policy as [_ [_ [Hnone [_ [Hrun _]]]]].
  split; [|split].
  - apply (proj1 (proj1 (Hrun "about " "1" " Hr 30 min" eq_refl
                           ltac:(discriminate) eq_refl eq_refl)
                    ltac:(simpl; lia))).
    right. exists "about 1 ", "Hr", " 30 min". split; reflexivity.
  - apply (proj2 (proj1 (Hrun "bake " "25" " min" eq_refl
                           ltac:(discriminate) eq_refl eq_refl)
                    ltac:(simpl; lia))).
    intros H. assert (Hb : false = true); [|discriminate Hb].
    change false
      with (str_in "hour" (lower "bake 25 min")
            || str_in "hr" (lower "bake 25 min")).
    apply orb_true_iff.
    destruct H as [H | H]; [left | right]; now apply str_in_lower_iff.
  - apply (Hnone "overnight"). reflexivity.
Defined.

(** C1 as stated fails: a first run of 4301 digits is not read as a number
    of minutes, the conversion raises ValueError. *)
Lemma parse_time_long_run_raises :
  all_digits (copies (Z.to_nat 4301) "7")
  /\ parse_time (Some (copies (Z.to_nat 4301) "7" ++ " minutes")) = None.
Proof. split; vm_compute; reflexivity. Qed.

(** ** Ingredient names *)

Ltac ascii_cases c :=
  destruct c as [[] [] [] [] [] [] [] []]; vm_compute; intros;
  try reflexivity; try discriminate; try congruence.

Lemma plain_lower_is_clean (c : ascii) :
  plain_char (lower_char c) = true -> clean_char (lower_char c) = true.
Proof. ascii_cases c. Qed.

Lemma clean_char_lower (c : ascii) : clean_char c = true -> lower_char c = c.
Proof. ascii_cases c. Qed.

Lemma clean_char_plain (c : ascii) : clean_char c = true -> plain_char c = true.
Proof. ascii_cases c. Qed.

Lemma word_not_space (c : ascii) : is_word c = true -> is_space c = false.
Proof. ascii_cases c. Qed.

Lemma space_not_word (c : ascii) : is_space c = true -> is_word c = false.
Proof. ascii_cases c. Qed.

(** *** The scan of [re.sub] over words and separators *)

Lemma literal_at_nonword (prev : option ascii) (x : ascii) (lit : string)
  (c : ascii) (r : string) :
  is_word x = true -> is_word c = false ->
  literal_then_boundary prev (String x lit) (String c r) = false.
Proof.
  intros Hx Hc. simpl. destruct (Ascii.eqb_spec x c) as [->|]; [|reflexivity].
  congruence.
Qed.

Lemma literal_in_word (prev : option ascii) (lit w rest : string) :
  is_word_opt prev = true ->
  PyStr.forallb is_word lit = true -> PyStr.forallb is_word w = true ->
  starts_nonword rest ->
  literal_then_boundary prev lit (w ++ rest) = String.eqb lit w.
Proof.
  revert prev w. induction lit as [|x lit IH]; intros prev w Hp Hl Hw Hr.
  - destruct w as [|c w]; simpl.
    + unfold word_boundary. rewrite Hp.
      destruct rest as [|d rest]; simpl in *; [reflexivity|now rewrite Hr].
    + simpl in Hw. apply andb_true_iff in Hw as [Hc _].
      unfold word_boundary. simpl. now rewrite Hp, Hc.
  - simpl in Hl. apply andb_true_iff in Hl as [Hx Hl].
    destruct w as [|c w].
    + destruct rest as [|d rest]; [reflexivity|].
      simpl in Hr. now apply literal_at_nonword.
    + simpl in Hw. apply andb_true_iff in Hw as [Hc Hw]. simpl.
      rewrite (IH (Some c) w) by auto. reflexivity.
Qed.

Lemma literal_at_word (prev : option ascii) (x : ascii) (lit : string)
  (c : ascii) (w rest : string) :
  PyStr.forallb is_word (String x lit) = true ->
  PyStr.forallb is_word (String c w) = true ->
  starts_nonword rest ->
  literal_then_boundary prev (String x lit) (String c w ++ rest)
  = String.eqb (String x lit) (String c w).
Proof.
  intros Hl Hw Hr. simpl in *.
  apply andb_true_iff in Hl as [Hx Hl]. apply andb_true_iff in Hw as [Hc Hw].
  now rewrite (literal_in_word (Some c) lit w rest).
Qed.

Lemma match_article_nonword (prev : option ascii) (c : ascii) (r : string) :
  is_word c = false -> match_article prev (String c r) = None.
Proof.
  intros Hc. unfold match_article, articles. cbn [first_alternative].
  rewrite !literal_at_nonword by (assumption || reflexivity).
  now destruct (word_boundary prev (head (String c r))).
Qed.

Lemma match_article_inside (p c : ascii) (r : string) :
  is_word p = true -> is_word c = true ->
  match_article (Some p) (String c r) = None.
Proof.
  intros Hp Hc. unfold match_article, word_boundary. simpl.
  now rewrite Hp, Hc.
Qed.

Lemma match_article_word (prev : option ascii) (c : ascii) (w rest : string) :
  is_word_opt prev = false ->
  PyStr.forallb is_word (String c w) = true -> starts_nonword rest ->
  match_article prev (String c w ++ rest)
  = if mem (String c w) articles
    then Some (String.length (String c w)) else None.
Proof.
  intros Hp Hw Hr. unfold match_article, word_boundary.
  change (head (String c w ++ rest)) with (Some c).
  pose proof Hw as Hw'. simpl in Hw'. apply andb_true_iff in Hw' as [Hc _].
  cbn [is_word_opt]. rewrite Hp, Hc. cbn [xorb].
  unfold articles, mem. cbn [first_alternative existsb].
  rewrite !literal_at_word by (assumption || reflexivity).
  rewrite !(String.eqb_sym (String c w)).
  destruct (String.eqb_spec "a" (String c w)) as [<-|]; [reflexivity|].
  destruct (String.eqb_spec "an" (String c w)) as [<-|]; [reflexivity|].
  destruct (String.eqb_spec "the" (String c w)) as [<-|]; reflexivity.
Qed.

Lemma sub_articles_prev (p q : option ascii) (s : string) :
  is_word_opt p = is_word_opt q ->
  sub_articles p 0 s = sub_articles q 0 s.
Proof.
  intros H. destruct s as [|c r]; [reflexivity|].
  cbn [sub_articles].
  assert (Hm : match_article p (String c r) = match_article q (String c r)).
  { unfold match_article, word_boundary. rewrite H. reflexivity. }
  now rewrite Hm.
Qed.

Lemma sub_articles_nonword (p : option ascii) (c : ascii) (r : string) :
  is_word c = false ->
  sub_articles p 0 (String c r) = String c (sub_articles None 0 r).
Proof.
  intros Hc. cbn [sub_articles]. rewrite match_article_nonword by exact Hc.
  f_equal. apply sub_articles_prev. simpl. exact Hc.
Qed.

Lemma sub_articles_start (p : option ascii) (rest : string) :
  starts_nonword rest -> sub_articles p 0 rest = sub_articles None 0 rest.
Proof.
  destruct rest as [|c r]; intros H; [reflexivity|].
  simpl in H. now rewrite !sub_articles_nonword.
Qed.

Lemma sub_articles_skip (p : option ascii) (w rest : string) :
  sub_articles p (String.length w) (w ++ rest)
  = sub_articles (last_opt p w) 0 rest.
Proof.
  revert p. induction w as [|c w IH]; intros p; [reflexivity|].
  simpl. apply IH.
Qed.

Lemma sub_articles_inside (p : ascii) (w rest : string) :
  is_word p = true -> PyStr.forallb is_word w = true ->
  sub_articles (Some p) 0 (w ++ rest)
  = w ++ sub_articles (last_opt (Some p) w) 0 rest.
Proof.
  revert p. induction w as [|c w IH]; intros p Hp Hw; [reflexivity|].
  simpl in Hw. apply andb_true_iff in Hw as [Hc Hw].
  change (String c w ++ rest) with (String c (w ++ rest)).
  cbn [sub_articles]. rewrite match_article_inside by assumption.
  rewrite IH by assumption. reflexivity.
Qed.

(** A separator is kept. *)
Lemma remove_articles_nonword (c : ascii) (r : string) :
  is_word c = false ->
  remove_articles (String c r) = String c (remove_articles r).
Proof. apply sub_articles_nonword. Qed.

(** A whole word is deleted when it is an article and kept otherwise. *)
Lemma remove_articles_word (w rest : string) :
  w <> "" -> PyStr.forallb is_word w = true -> starts_nonword rest ->
  remove_articles (w ++ rest)
  = (if mem w articles then "" else w) ++ remove_articles rest.
Proof.
  intros Hne Hw Hr. destruct w as [|c w]; [congruence|].
  unfold remove_articles.
  pose proof (match_article_word None c w rest eq_refl Hw Hr) as Hm.
  change (String c w ++ rest) with (String c (w ++ rest)) in *.
  cbn [sub_articles]. rewrite Hm.
  simpl in Hw. apply andb_true_iff in Hw as [Hc Hw].
  destruct (mem (String c w) articles).
  - cbn [String.length Nat.pred]. rewrite sub_articles_skip.
    now rewrite sub_articles_start.
  - rewrite sub_articles_inside by assumption.
    now rewrite (sub_articles_start _ rest).
Qed.

Lemma word_split (s : string) :
  exists w rest,
    s = w ++ rest /\ PyStr.forallb is_word w = true /\ starts_nonword rest
    /\ (String.length rest <= String.length s)%nat.
Proof.
  induction s as [|c s [w [rest [Hs [Hw [Hr Hlen]]]]]].
  - exists "", "". repeat split. auto.
  - destruct (is_word c) eqn:Hc.
    + exists (String c w), rest. simpl. rewrite Hc, <- Hs. repeat split; auto.
    + exists "", (String c s). repeat split; auto.
Qed.

(** Induction over a string as a sequence of separators and whole words. *)
Lemma token_ind (P : string -> Prop) :
  P "" ->
  (forall c r, is_word c = false -> P r -> P (String c r)) ->
  (forall w rest,
      w <> "" -> PyStr.forallb is_word w = true -> starts_nonword rest ->
      P rest -> P (w ++ rest)) ->
  forall s, P s.
Proof.
  intros Hnil Hsep Hword.
  assert (H : forall n s, (String.length s <= n)%nat -> P s).
  { induction n as [|n IH]; intros s Hlen.
    - destruct s; [exact Hnil | simpl in Hlen; lia].
    - destruct s as [|c r]; [exact Hnil|]. simpl in Hlen.
      destruct (is_word c) eqn:Hc.
      + destruct (word_split r) as [w [rest [-> [Hw [Hr Hl]]]]].
        apply (Hword (String c w) rest).
        * discriminate.
        * simpl. now rewrite Hc.
        * exact Hr.
        * apply IH. lia.
      + apply Hsep; [exact Hc|]. apply IH. lia. }
  intros s. now apply (H (String.length s)).
Qed.

Lemma starts_nonword_remove (rest : string) :
  starts_nonword rest -> starts_nonword (remove_articles rest).
Proof.
  destruct rest as [|c r]; intros H; [exact I|].
  simpl in H. now rewrite remove_articles_nonword.
Qed.

(** What one substitution leaves has no article left to delete. *)
Lemma remove_articles_idem (s : string) :
  remove_articles (remove_articles s) = remove_articles s.
Proof.
  induction s as [|c r Hc IH|w rest Hne Hw Hr IH] using token_ind.
  - reflexivity.
  - rewrite !remove_articles_nonword, IH by exact Hc. reflexivity.
  - rewrite remove_articles_word by assumption.
    destruct (mem w articles) eqn:Hart.
    + exact IH.
    + rewrite remove_articles_word, Hart, IH;
        auto using starts_nonword_remove.
Qed.

Lemma sub_articles_length (p : option ascii) (k : nat) (s : string) :
  (String.length (sub_articles p k s) <= String.length s)%nat.
Proof.
  revert p k. induction s as [|c s IH]; intros p k; [simpl; lia|].
  cbn [sub_articles]. destruct k as [|k].
  - destruct (match_article p (String c s)) as [n|]; simpl.
    + specialize (IH (Some c) (Nat.pred n)). lia.
    + specialize (IH (Some c) 0%nat). lia.
  - specialize (IH (Some c) k). simpl. lia.
Qed.

Lemma append_length (a b : string) :
  String.length (a ++ b) = (String.length a + String.length b)%nat.
Proof. induction a; simpl; congruence. Qed.

Lemma append_inv_head (a b c : string) : a ++ b = a ++ c -> b = c.
Proof. induction a; simpl; intros H; [exact H | injection H; auto]. Qed.

(** *** [strip] *)

Lemma rstrip_nonspace (c : ascii) (r : string) :
  is_space c = false -> rstrip (String c r) = String c (rstrip r).
Proof. intros H. simpl. now rewrite H. Qed.

Lemma rstrip_word (w rest : string) :
  PyStr.forallb is_word w = true -> rstrip (w ++ rest) = w ++ rstrip rest.
Proof.
  induction w as [|c w IH]; intros Hw; [reflexivity|].
  simpl in Hw. apply andb_true_iff in Hw as [Hc Hw].
  change (String c w ++ rest) with (String c (w ++ rest)).
  rewrite rstrip_nonspace by now apply word_not_space.
  now rewrite IH.
Qed.

Lemma rstrip_cases (c : ascii) (r : string) :
  (is_space c = true /\ rstrip (String c r) = "")
  \/ rstrip (String c r) = String c (rstrip r).
Proof.
  simpl. destruct (is_space c); [|now right].
  destruct (rstrip r); simpl; auto.
Qed.

Lemma rstrip_idem (s : string) : rstrip (rstrip s) = rstrip s.
Proof.
  induction s as [|c s IH]; [reflexivity|].
  destruct (rstrip_cases c s) as [[_ H] | H]; rewrite H; [reflexivity|].
  transitivity (rstrip (String c s)); [|exact H].
  simpl. rewrite IH. reflexivity.
Qed.

Lemma lstrip_rstrip (s : string) :
  lstrip s = s -> lstrip (rstrip s) = rstrip s.
Proof.
  destruct s as [|c s]; [reflexivity|]. intros H.
  assert (Hc : is_space c = false).
  { simpl in H. destruct (is_space c) eqn:E; [|reflexivity].
    exfalso.
    assert (Hlen : forall t, (String.length (lstrip t) <= String.length t)%nat).
    { induction t as [|d t IHt]; simpl; [lia|].
      destruct (is_space d); simpl; lia. }
    specialize (Hlen s). rewrite H in Hlen. simpl in Hlen. lia. }
  rewrite rstrip_nonspace by exact Hc. simpl. now rewrite Hc.
Qed.

Lemma lstrip_idem (s : string) : lstrip (lstrip s) = lstrip s.
Proof.
  induction s as [|c s IH]; [reflexivity|].
  simpl. destruct (is_space c) eqn:Hc; [exact IH|].
  simpl. now rewrite Hc.
Qed.

Lemma strip_idem (s : string) : strip (strip s) = strip s.
Proof.
  unfold strip.
  rewrite (lstrip_rstrip (lstrip s)) by apply lstrip_idem.
  apply rstrip_idem.
Qed.

Lemma remove_articles_lstrip (s : string) :
  remove_articles s = s -> remove_articles (lstrip s) = lstrip s.
Proof.
  induction s as [|c s IH]; intros H; [reflexivity|].
  simpl. destruct (is_space c) eqn:Hc; [|exact H].
  apply IH. rewrite remove_articles_nonword in H
    by now apply space_not_word.
  now injection H.
Qed.

Lemma remove_articles_rstrip (s : string) :
  remove_articles s = s -> remove_articles (rstrip s) = rstrip s.
Proof.
  induction s as [|c r Hc IH|w rest Hne Hw Hr IH] using token_ind; intros H.
  - reflexivity.
  - rewrite remove_articles_nonword in H by exact Hc. injection H as H.
    destruct (rstrip_cases c r) as [[_ E] | E]; rewrite E; [reflexivity|].
    rewrite remove_articles_nonword by exact Hc. now rewrite IH.
  - rewrite remove_articles_word in H by assumption.
    destruct (mem w articles) eqn:Hart.
    + exfalso. apply (f_equal String.length) in H.
      rewrite !append_length in H.
      pose proof (sub_articles_length None 0 rest) as Hlen.
      fold (remove_articles rest) in Hlen.
      destruct w; [congruence | simpl in H; lia].
    + apply append_inv_head in H.
      rewrite rstrip_word by exact Hw.
      rewrite remove_articles_word, Hart, IH; auto.
      destruct rest as [|d rest]; [exact I|].
      destruct (rstrip_cases d rest) as [[_ E] | E]; rewrite E;
        [exact I | exact Hr].
Qed.

Lemma remove_articles_strip (s : string) :
  remove_articles s = s -> remove_articles (strip s) = strip s.
Proof.
  intros H. unfold strip.
  now apply remove_articles_rstrip, remove_articles_lstrip.
Qed.

(** *** The characters of a cleaned name *)

Lemma forallb_lstrip (p : ascii -> bool) (s : string) :
  PyStr.forallb p s = true -> PyStr.forallb p (lstrip s) = true.
Proof.
  induction s as [|c s IH]; intros H; [reflexivity|].
  simpl. destruct (is_space c); [|exact H].
  simpl in H. apply andb_true_iff in H as [_ H]. auto.
Qed.

Lemma forallb_rstrip (p : ascii -> bool) (s : string) :
  PyStr.forallb p s = true -> PyStr.forallb p (rstrip s) = true.
Proof.
  induction s as [|c s IH]; intros H; [reflexivity|].
  simpl in H. apply andb_true_iff in H as [Hc H].
  destruct (rstrip_cases c s) as [[_ E] | E]; rewrite E; [reflexivity|].
  simpl. now rewrite Hc, IH.
Qed.

Lemma forallb_strip (p : ascii -> bool) (s : string) :
  PyStr.forallb p s = true -> PyStr.forallb p (strip s) = true.
Proof. intros H. now apply forallb_rstrip, forallb_lstrip. Qed.

Lemma forallb_sub_articles (p : ascii -> bool) (prev : option ascii)
  (skip : nat) (s : string) :
  PyStr.forallb p s = true ->
  PyStr.forallb p (sub_articles prev skip s) = true.
Proof.
  revert prev skip. induction s as [|c s IH]; intros prev skip H;
    [reflexivity|].
  simpl in H. apply andb_true_iff in H as [Hc H].
  cbn [sub_articles]. destruct skip as [|k]; [|now apply IH].
  destruct (match_article prev (String c s)); [now apply IH|].
  simpl. now rewrite Hc, IH.
Qed.

Lemma forallb_remove_special_lower (s : string) :
  PyStr.forallb clean_char (remove_special (lower s)) = true.
Proof.
  unfold remove_special. induction s as [|c s IH]; [reflexivity|].
  simpl. destruct (plain_char (lower_char c)) eqn:Hc; [|exact IH].
  simpl. now rewrite plain_lower_is_clean, IH.
Qed.

Lemma clean_lower_fixed (s : string) :
  PyStr.forallb clean_char s = true -> lower s = s.
Proof.
  induction s as [|c s IH]; intros H; [reflexivity|].
  simpl in H. apply andb_true_iff in H as [Hc H].
  simpl. now rewrite clean_char_lower, IH.
Qed.

Lemma clean_remove_special_fixed (s : string) :
  PyStr.forallb clean_char s = true -> remove_special s = s.
Proof.
  unfold remove_special. induction s as [|c s IH]; intros H; [reflexivity|].
  simpl in H. apply andb_true_iff in H as [Hc H].
  simpl. now rewrite clean_char_plain, IH.
Qed.

Lemma clean_ingredient_name_chars (s : string) :
  PyStr.forallb clean_char (clean_ingredient_name s) = true.
Proof.
  unfold clean_ingredient_name, remove_articles.
  apply forallb_strip, forallb_sub_articles, forallb_strip,
    forallb_remove_special_lower.
Qed.

(** C2, as the code has it: for every input string the cleaned name
    contains only lowercase letters, digits and whitespace characters
    (whatever [\s] matches, and any number of them in a row); and
    "A Ripe TOMATO!" becomes "ripe tomato". *)
Theorem clean_ingredient_name_alphabet :
  (forall s : string,
      PyStr.forallb clean_char (clean_ingredient_name s) = true)
  /\ clean_ingredient_name "A Ripe TOMATO!" = "ripe tomato".
Proof. split; [exact clean_ingredient_name_chars | reflexivity]. Qed.

(** C2 as stated fails: deleting an article leaves the spaces on both of
    its sides, and a tab is whitespace that the first substitution
    keeps. *)
Lemma clean_ingredient_name_not_single_spaced :
  clean_ingredient_name "juice of a lemon" = "juice of  lemon"
  /\ single_spaced (clean_ingredient_name "juice of a lemon") = false
  /\ PyStr.forallb spec_char
       (clean_ingredient_name (String "2" (String "009" "cups"))) = false.
Proof. repeat split. Qed.

(** C10: cleaning a cleaned name changes nothing. *)
Theorem clean_ingredient_name_idempotent :
  forall s : string,
    clean_ingredient_name (clean_ingredient_name s) = clean_ingredient_name s.
Proof.
  intros s. pose proof (clean_ingredient_name_chars s) as Hchars.
  set (t := clean_ingredient_name s) in *.
  assert (Hstrip : strip t = t) by apply strip_idem.
  assert (Hart : remove_articles t = t).
  { unfold t, clean_ingredient_name. apply remove_articles_strip.
    apply remove_articles_idem. }
  unfold clean_ingredient_name at 1.
  rewrite (clean_lower_fixed t Hchars), (clean_remove_special_fixed t Hchars).
  now rewrite Hstrip, Hart.
Qed.

(** ** Sample generator *)

Lemma int_from_uint (d : Decimal.uint) (acc : nat) :
  int_from (Z.of_nat acc) (NilEmpty.string_of_uint d)
  = Z.of_nat (Nat.of_uint_acc d acc).
Proof.
  revert acc. induction d; intros acc; cbn [NilEmpty.string_of_uint int_from
                                            Nat.of_uint_acc];
    [reflexivity | rewrite <- IHd; f_equal; rewrite Nat.tail_mul_spec;
                   unfold digit_value; cbn [code N_of_ascii N_of_digits];
                   lia ..].
Qed.

Lemma int_str_of_nat (n : nat) : digits_to_Z (str_of_nat n) = Z.of_nat n.
Proof.
  unfold str_of_nat, digits_to_Z.
  rewrite <- (DecimalNat.Unsigned.of_to n) at 2. unfold Nat.of_uint.
  rewrite <- int_from_uint.
  now destruct (Nat.to_uint n).
Qed.

Lemma int_zeros (k : nat) (s : string) :
  digits_to_Z (zeros k ++ s) = digits_to_Z s.
Proof.
  unfold digits_to_Z. induction k as [|k IH]; [reflexivity | exact IH].
Qed.

Lemma forallb_app (p : ascii -> bool) (a b : string) :
  PyStr.forallb p (a ++ b) = PyStr.forallb p a && PyStr.forallb p b.
Proof.
  induction a as [|c a IH]; [reflexivity|].
  simpl. now rewrite IH, andb_assoc.
Qed.

Lemma all_digits_uint (d : Decimal.uint) :
  all_digits (NilEmpty.string_of_uint d).
Proof. unfold all_digits. induction d; simpl; auto. Qed.

Lemma all_digits_format (n : nat) : all_digits (format_04d n).
Proof.
  unfold all_digits, format_04d. rewrite forallb_app. apply andb_true_iff.
  split.
  - induction (4 - String.length (str_of_nat n))%nat; simpl; auto.
  - unfold str_of_nat, NilZero.string_of_uint.
    destruct (Nat.to_uint n) eqn:E; try reflexivity;
      rewrite <- E; apply all_digits_uint.
Qed.

Lemma format_04d_value (n : nat) : decimal_value (format_04d n) = Z.of_nat n.
Proof.
  rewrite <- int_value. unfold format_04d.
  now rewrite int_zeros, int_str_of_nat.
Qed.

Lemma zeros_length (k : nat) : String.length (zeros k) = k.
Proof. induction k; simpl; congruence. Qed.

Lemma format_04d_width (n : nat) : (4 <= String.length (format_04d n))%nat.
Proof.
  unfold format_04d. rewrite append_length, zeros_length. lia.
Qed.

Lemma format_04d_four (n : nat) :
  Z.of_nat n <= 9999 -> String.length (format_04d n) = 4%nat.
Proof.
  intros Hn.
  assert (Hall : List.forallb
                   (fun k => Nat.eqb (String.length (format_04d k)) 4)
                   (seq 0 (Z.to_nat 10000)) = true)
    by (vm_compute; reflexivity).
  rewrite List.forallb_forall in Hall.
  apply Nat.eqb_eq, Hall, in_seq. lia.
Qed.

Lemma format_04d_inj (a b : nat) : format_04d a = format_04d b -> a = b.
Proof.
  intros H. apply (f_equal decimal_value) in H.
  rewrite !format_04d_value in H. lia.
Qed.

(** One turn of the loop: the id comes from the index alone, and the
    total time is the sum of the two times drawn. *)
Lemma sample_recipe_fields (i : nat) (src : Rand.source) :
  let recipe := fst (sample_recipe i src) in
  id recipe = "recipe_" ++ format_04d (i + 1)
  /\ totalTime recipe = prepTime recipe + cookTime recipe.
Proof.
  unfold sample_recipe, Rand.bind, Rand.choice, Rand.randint, Rand.bind,
    Rand.randbelow, Rand.ret.
  cbv beta iota zeta.
  match goal with
  | |- context [Rand.sample ?p ?k ?s] =>
      destruct (Rand.sample p k s) as [tags src']
  end.
  split; reflexivity.
Qed.

Lemma sample_loop_spec (todo i : nat) (acc : list Recipe)
  (src : Rand.source) :
  exists fresh,
    fst (sample_loop todo i acc src) = (acc ++ fresh)%list
    /\ map id fresh
       = map (fun j => "recipe_" ++ format_04d (j + 1)) (seq i todo)
    /\ Forall (fun r => totalTime r = prepTime r + cookTime r) fresh.
Proof.
  revert i acc src. induction todo as [|todo IH]; intros i acc src.
  - exists []. simpl. rewrite app_nil_r. auto.
  - cbn [sample_loop]. unfold Rand.bind.
    pose proof (sample_recipe_fields i src) as Hfields.
    destruct (sample_recipe i src) as [recipe src'].
    cbv zeta in Hfields. cbn [fst] in Hfields. destruct Hfields as [Hid Htot].
    destruct (IH (S i) (acc ++ [recipe])%list src')
      as [fresh [Hrun [Hids Hall]]].
    exists (recipe :: fresh). rewrite Hrun, <- app_assoc.
    split; [reflexivity|]. split.
    + cbn [map seq]. now rewrite Hid, Hids.
    + now constructor.
Qed.

Lemma NoDup_map_inj {A B : Type} (f : A -> B) (l : list A) :
  (forall a b, f a = f b -> a = b) -> NoDup l -> NoDup (map f l).
Proof.
  intros Hinj. induction 1 as [|a l Hnin Hnd IH]; simpl; constructor; auto.
  intros Hin. apply in_map_iff in Hin as [b [Hb Hin]].
  apply Hinj in Hb. now subst.
Qed.

Lemma digit_value_range (c : ascii) :
  is_decimal c = true -> 0 <= digit_value c <= 9.
Proof.
  destruct c as [[] [] [] [] [] [] [] []]; intros H;
    try (vm_compute in H; discriminate H);
    vm_compute; split; discriminate.
Qed.

Lemma decimal_value_bound (s : string) :
  all_digits s -> 0 <= decimal_value s < 10 ^ Z.of_nat (String.length s).
Proof.
  unfold all_digits. induction s as [|c s IH]; intros H; [simpl; lia|].
  simpl in H. apply andb_true_iff in H as [Hc H].
  cbn [decimal_value String.length]. specialize (IH H).
  pose proof (digit_value_range c Hc).
  rewrite Nat2Z.inj_succ, Z.pow_succ_r by lia. nia.
Qed.

(** From rank 10000 on the decimal digits fill the width and nothing is
    padded. *)
Lemma format_04d_wide (n : nat) :
  9999 < Z.of_nat n -> format_04d n = str_of_nat n.
Proof.
  intros Hn. unfold format_04d.
  assert (Hd : all_digits (str_of_nat n)).
  { unfold str_of_nat, NilZero.string_of_uint.
    destruct (Nat.to_uint n) eqn:E; try reflexivity;
      rewrite <- E; apply all_digits_uint. }
  pose proof (decimal_value_bound _ Hd) as Hb.
  rewrite <- int_value, int_str_of_nat in Hb.
  assert (Hlen : (4 < String.length (str_of_nat n))%nat).
  { destruct (Nat.ltb_spec 4 (String.length (str_of_nat n))) as [|Hle];
      [assumption|].
    assert (10 ^ Z.of_nat (String.length (str_of_nat n)) <= 10 ^ 4)
      by (apply Z.pow_le_mono_r; lia).
    lia. }
  replace (4 - String.length (str_of_nat n))%nat with 0%nat by lia.
  reflexivity.
Qed.

Lemma nzhead_not_zero (d d' : Decimal.uint) : Decimal.nzhead d <> Decimal.D0 d'.
Proof. induction d; simpl; try discriminate. exact IHd. Qed.

(** The decimal digits of a positive number do not start with a zero. *)
Lemma str_of_nat_head (n : nat) :
  0 < Z.of_nat n -> head (str_of_nat n) <> Some "0"%char.
Proof.
  intros Hn. unfold str_of_nat.
  pose proof (DecimalNat.Unsigned.of_to n) as Hof.
  pose proof (DecimalNat.Unsigned.to_of (Nat.to_uint n)) as Hto.
  rewrite Hof in Hto.
  destruct (Nat.to_uint n) as [|d|d|d|d|d|d|d|d|d|d]; simpl;
    try discriminate.
  exfalso. unfold Decimal.unorm in Hto. simpl in Hto.
  destruct (Decimal.nzhead d) eqn:E; try discriminate Hto.
  - injection Hto as Hd. subst d. vm_compute in Hof. lia.
  - apply (nzhead_not_zero d d). congruence.
Qed.

(** C7, as the code has it: for every count N >= 0 and every random
    source, the generator returns exactly N records; the record of rank k
    (from 1) has the id "recipe_" followed by k in decimal, padded with
    zeros to four digits up to rank 9999 and written in full, without a
    leading zero, from rank 10000 on; the ids are pairwise different; and
    the total time of every record is the sum of its preparation and
    cooking times. *)
Theorem create_sample_recipes_ids :
  forall (count : Z) (src : Rand.source),
    0 <= count ->
    let recipes := fst (create_sample_recipes count src) in
    Z.of_nat (List.length recipes) = count
    /\ NoDup (map id recipes)
    /\ (forall (i : nat) (r : Recipe),
          nth_error recipes i = Some r ->
          (exists digits : string,
              id r = "recipe_" ++ digits
              /\ all_digits digits
              /\ decimal_value digits = Z.of_nat i + 1
              /\ (4 <= String.length digits)%nat
              /\ (Z.of_nat i + 1 <= 9999 -> String.length digits = 4%nat)
              /\ (9999 < Z.of_nat i + 1 ->
                  head digits <> Some "0"%char))
          /\ totalTime r = prepTime r + cookTime r).
Proof.
  intros count src Hcount recipes.
  destruct (sample_loop_spec (Z.to_nat count) 0 [] src)
    as [fresh [Hrun [Hids Hall]]].
  change (fst (sample_loop (Z.to_nat count) 0 [] src)) with recipes in Hrun.
  simpl in Hrun. subst fresh.
  assert (Hlen : List.length recipes = Z.to_nat count).
  { rewrite <- (length_map id), Hids, length_map, length_seq. reflexivity. }
  split; [lia|]. split.
  - rewrite Hids. apply NoDup_map_inj; [|apply seq_NoDup].
    intros a b H. apply append_inv_head, format_04d_inj in H. lia.
  - intros i r Hnth. split.
    + assert (Hid : nth_error (map id recipes) i = Some (id r))
        by now apply map_nth_error.
      rewrite Hids in Hid.
      assert (Hi : (i < Z.to_nat count)%nat).
      { rewrite <- Hlen. apply nth_error_Some. congruence. }
      rewrite nth_error_map, nth_error_seq in Hid.
      destruct (Nat.ltb_spec i (Z.to_nat count)); [|lia].
      cbn [option_map Nat.add] in Hid. injection Hid as Hid.
      exists (format_04d (i + 1)). split; [symmetry; exact Hid|].
      split; [apply all_digits_format|].
      split; [rewrite format_04d_value; lia|].
      split; [apply format_04d_width|].
      split.
      * intros Hsmall. apply format_04d_four. lia.
      * intros Hbig. rewrite format_04d_wide by lia.
        apply str_of_nat_head. lia.
    + rewrite Forall_forall in Hall. apply Hall.
      eapply nth_error_In, Hnth.
Qed.

Lemma create_sample_recipes_ids_witness :
  Z.of_nat (List.length (fst (create_sample_recipes 3 (fun n => n)))) = 3.
Proof.
  apply (create_sample_recipes_ids 3 (fun n => n)). lia.
Defined.

(** C7 as stated fails: the id of the record of rank 10000 has five
    digits. *)
Lemma create_sample_recipes_five_digits :
  exists r : Recipe,
    nth_error (fst (create_sample_recipes 10000 (fun _ => 0%nat)))
      (Z.to_nat 9999) = Some r
    /\ id r = "recipe_10000".
Proof.
  unfold create_sample_recipes.
  destruct (sample_loop_spec (Z.to_nat 10000) 0 [] (fun _ => 0%nat))
    as [fresh [Hrun [Hids _]]].
  rewrite Hrun. cbn [app].
  assert (Hid : nth_error (map id fresh) (Z.to_nat 9999)
                = Some "recipe_10000").
  { rewrite Hids, nth_error_map, nth_error_seq.
    assert (Hlt : Nat.ltb (Z.to_nat 9999) (Z.to_nat 10000) = true)
      by (vm_compute; reflexivity).
    rewrite Hlt. cbn [option_map]. vm_compute. reflexivity. }
  rewrite nth_error_map in Hid.
  destruct (nth_error fresh (Z.to_nat 9999)) as [r|]; [|discriminate Hid].
  exists r. split; [reflexivity|]. now injection Hid.
Qed.

(** ** Cuisine statistics *)

(** *** The dictionary of counts *)

Lemma dict_set_sum (d : dict) (k : string) (v : Z) :
  sum_counts (dict_set d k v) = sum_counts d - dict_get d k 0 + v.
Proof.
  induction d as [|[k' v'] d IH]; simpl; [lia|].
  destruct (String.eqb k' k); simpl; lia.
Qed.

Lemma dict_set_keys (d : dict) (k : string) (v : Z) (c : string) :
  In c (keys (dict_set d k v)) <-> c = k \/ In c (keys d).
Proof.
  unfold keys. induction d as [|[k' v'] d IH]; simpl.
  - intuition congruence.
  - destruct (String.eqb_spec k' k) as [->|Hne]; simpl.
    + intuition congruence.
    + rewrite IH. intuition congruence.
Qed.

Lemma dict_set_NoDup (d : dict) (k : string) (v : Z) :
  NoDup (keys d) -> NoDup (keys (dict_set d k v)).
Proof.
  induction d as [|[k' v'] d IH]; intros Hnd.
  - simpl. constructor; [intros [] | constructor].
  - simpl. inversion Hnd as [|? ? Hnin Hnd']; subst.
    destruct (String.eqb_spec k' k) as [->|Hne]; simpl.
    + now constructor.
    + constructor; [|now apply IH].
      change (~ In k' (keys (dict_set d k v))).
      rewrite dict_set_keys. intros [-> | Hin]; auto.
Qed.

Lemma dict_get_set (d : dict) (k c : string) (v : Z) :
  dict_get (dict_set d k v) c 0 = if String.eqb k c then v else dict_get d c 0.
Proof.
  induction d as [|[k' v'] d IH]; simpl.
  - reflexivity.
  - destruct (String.eqb_spec k' k) as [->|Hne]; simpl.
    + destruct (String.eqb_spec k c); reflexivity.
    + rewrite IH. destruct (String.eqb_spec k' c) as [->|]; [|reflexivity].
      destruct (String.eqb_spec k c); congruence.
Qed.

Lemma dict_get_In (d : dict) (c : string) (n : Z) :
  NoDup (keys d) -> In (c, n) d -> dict_get d c 0 = n.
Proof.
  induction d as [|[k v] d IH]; intros Hnd Hin; [destruct Hin|].
  inversion Hnd as [|? ? Hnin Hnd']; subst. simpl.
  destruct Hin as [Heq | Hin].
  - injection Heq as -> ->. now rewrite String.eqb_refl.
  - destruct (String.eqb_spec k c) as [->|]; [|now apply IH].
    exfalso. apply Hnin. change (In (fst (c, n)) (map fst d)).
    now apply in_map.
Qed.

Lemma keys_In (d : dict) (c : string) :
  In c (keys d) -> exists n, In (c, n) d.
Proof.
  unfold keys. intros H. apply in_map_iff in H as [[k n] [Hk Hin]].
  simpl in Hk. subst. eauto.
Qed.

(** The counting loop, from any dictionary [d]. *)
Lemma count_loop (recipes : list Recipe) (d : dict) :
  let step := fun (d : dict) (recipe : Recipe) =>
                dict_set d (cuisine recipe)
                  (dict_get d (cuisine recipe) 0 + 1) in
  let d' := fold_left step recipes d in
  NoDup (keys d) ->
  NoDup (keys d')
  /\ sum_counts d' = sum_counts d + Z.of_nat (List.length recipes)
  /\ (forall c, dict_get d' c 0 = dict_get d c 0 + frequency c recipes)
  /\ (forall c, In c (keys d') <->
                In c (keys d) \/ In c (map cuisine recipes)).
Proof.
  intros step. revert d. induction recipes as [|r recipes IH]; intros d d' Hnd.
  - subst d'. unfold frequency. simpl.
    split; [exact Hnd|]. split; [lia|]. split; [intros c; lia|].
    intros c. tauto.
  - subst d'. cbn [fold_left].
    destruct (IH (step d r)) as [Hnd' [Hsum [Hget Hkeys]]].
    { now apply dict_set_NoDup. }
    split; [exact Hnd'|]. split; [|split].
    + rewrite Hsum. unfold step. rewrite dict_set_sum.
      cbn [List.length]. lia.
    + intros c. rewrite Hget. unfold step. rewrite dict_get_set.
      unfold frequency. cbn [map count_occ].
      destruct (string_dec (cuisine r) c) as [Heq|Hne]; cbv iota.
      * rewrite Heq, String.eqb_refl. lia.
      * apply String.eqb_neq in Hne. rewrite Hne. lia.
    + intros c. rewrite Hkeys. unfold step. rewrite dict_set_keys.
      simpl. intuition congruence.
Qed.

(** *** The order of the report *)

Lemma ascii_compare_lt (a b : ascii) :
  Ascii.compare a b = Lt <-> (N_of_ascii a < N_of_ascii b)%N.
Proof. unfold Ascii.compare. apply N.compare_lt_iff. Qed.

Lemma string_le_trans (a b c : string) :
  String.compare a b <> Gt -> String.compare b c <> Gt ->
  String.compare a c <> Gt.
Proof.
  revert b c. induction a as [|x a IH]; intros b c Hab Hbc.
  - destruct c; discriminate.
  - destruct b as [|y b]; [now contradiction Hab|].
    destruct c as [|z c]; [now contradiction Hbc|].
    simpl in *.
    destruct (Ascii.compare x y) eqn:Exy; [| |now contradiction Hab];
      destruct (Ascii.compare y z) eqn:Eyz; try now contradiction Hbc.
    + apply Ascii.compare_eq_iff in Exy, Eyz. subst.
      unfold Ascii.compare. rewrite N.compare_refl. eauto.
    + apply Ascii.compare_eq_iff in Exy. subst. rewrite Eyz. discriminate.
    + apply Ascii.compare_eq_iff in Eyz. subst. rewrite Exy. discriminate.
    + pose proof (proj1 (ascii_compare_lt x y) Exy) as Hxy.
      pose proof (proj1 (ascii_compare_lt y z) Eyz) as Hyz.
      assert (Hxz : Ascii.compare x z = Lt) by (apply ascii_compare_lt; lia).
      rewrite Hxz. discriminate.
Qed.

Lemma string_le_neq_lt (a b : string) :
  String.compare a b <> Gt -> a <> b -> String.compare a b = Lt.
Proof.
  intros Hle Hne. destruct (String.compare a b) eqn:E; try congruence.
  apply String.compare_eq_iff in E. congruence.
Qed.

Lemma item_ltb_true (x y : string * Z) : item_ltb x y = true -> key_le x y.
Proof.
  unfold item_ltb, key_le.
  destruct (String.compare (fst x) (fst y)); intros H E;
    first [discriminate H | discriminate E].
Qed.

Lemma item_ltb_false (x y : string * Z) : item_ltb x y = false -> key_le y x.
Proof.
  unfold item_ltb, key_le. rewrite (String.compare_antisym (fst y) (fst x)).
  destruct (String.compare (fst x) (fst y)); simpl; intros H E;
    first [discriminate H | discriminate E].
Qed.

Lemma insert_item_perm (x : string * Z) (l : list (string * Z)) :
  Permutation (insert_item x l) (x :: l).
Proof.
  induction l as [|y l IH]; simpl; [reflexivity|].
  destruct (item_ltb x y); [reflexivity|].
  rewrite IH. apply perm_swap.
Qed.

Lemma insert_item_sorted (x : string * Z) (l : list (string * Z)) :
  Sorted key_le l -> Sorted key_le (insert_item x l).
Proof.
  induction 1 as [|y l Hsorted IH Hhd]; simpl.
  - repeat constructor.
  - destruct (item_ltb x y) eqn:E.
    + constructor; [now constructor|].
      constructor. now apply item_ltb_true.
    + constructor; [exact IH|].
      destruct l as [|z l]; simpl.
      * constructor. now apply item_ltb_false.
      * destruct (item_ltb x z); constructor.
        -- now apply item_ltb_false.
        -- now inversion Hhd.
Qed.

Lemma sorted_from (l acc : list (string * Z)) :
  Sorted key_le acc ->
  Sorted key_le (fold_left (fun acc x => insert_item x acc) l acc)
  /\ Permutation (fold_left (fun acc x => insert_item x acc) l acc)
       (l ++ acc).
Proof.
  revert acc. induction l as [|x l IH]; intros acc Hacc; simpl.
  - split; [exact Hacc | reflexivity].
  - destruct (IH (insert_item x acc)) as [Hs Hp].
    { now apply insert_item_sorted. }
    split; [exact Hs|]. rewrite Hp, insert_item_perm.
    symmetry. apply Permutation_middle.
Qed.

Lemma sorted_spec (l : list (string * Z)) :
  Sorted key_le (sorted l) /\ Permutation (sorted l) l.
Proof.
  destruct (sorted_from l []) as [Hs Hp]; [constructor|].
  rewrite app_nil_r in Hp. now split.
Qed.

Lemma sum_counts_perm (a b : list (string * Z)) :
  Permutation a b -> sum_counts a = sum_counts b.
Proof. induction 1; simpl in *; lia. Qed.

Lemma strictly_sorted (l : list (string * Z)) :
  Sorted key_le l -> NoDup (keys l) -> StronglySorted key_lt l.
Proof.
  intros Hs Hnd. apply Sorted_StronglySorted in Hs.
  - induction Hs as [|x l Hs IH Hall]; [constructor|].
    inversion Hnd as [|? ? Hnin Hnd']; subst.
    constructor; [now apply IH|].
    rewrite Forall_forall in *. intros y Hy.
    apply string_le_neq_lt; [now apply Hall|].
    intros Heq. apply Hnin. rewrite Heq. now apply in_map.
  - intros a b c. unfold key_le. apply string_le_trans.
Qed.

Lemma sample_recipe_cuisine (i : nat) (src : Rand.source) :
  In (cuisine (fst (sample_recipe i src))) sample_cuisines.
Proof.
  unfold sample_recipe, Rand.bind, Rand.choice, Rand.randint, Rand.bind,
    Rand.randbelow, Rand.ret.
  cbv beta iota zeta.
  match goal with
  | |- context [Rand.sample ?p ?k ?s] =>
      destruct (Rand.sample p k s) as [tags src']
  end.
  cbn [fst cuisine]. apply nth_In. apply Nat.mod_upper_bound. discriminate.
Qed.

Lemma sample_loop_cuisines (todo i : nat) (acc : list Recipe)
  (src : Rand.source) :
  Forall (fun r => In (cuisine r) sample_cuisines) acc ->
  Forall (fun r => In (cuisine r) sample_cuisines)
    (fst (sample_loop todo i acc src)).
Proof.
  revert i acc src. induction todo as [|todo IH]; intros i acc src Hacc.
  - exact Hacc.
  - cbn [sample_loop]. unfold Rand.bind.
    pose proof (sample_recipe_cuisine i src) as Hc.
    destruct (sample_recipe i src) as [recipe src']. cbn [fst] in Hc.
    apply IH. apply Forall_app. split; [exact Hacc|]. now constructor.
Qed.

Lemma frequency_positive (c : string) (recipes : list Recipe) :
  0 < frequency c recipes <-> In c (map cuisine recipes).
Proof.
  unfold frequency. rewrite (count_occ_In string_dec). lia.
Qed.

(** C8: the report of a recipe collection splits it by cuisine: the counts
    add up to the number of recipes, each line carries the number of
    recipes of its cuisine, and the lines come in increasing order of the
    cuisine; for a generated collection the cuisines are among the six
    lowercase names, which that order sorts alphabetically. *)
Theorem cuisine_report_partition :
  (forall recipes : list Recipe,
      let report := cuisine_report recipes in
      sum_counts report = Z.of_nat (List.length recipes)
      /\ StronglySorted key_lt report
      /\ (forall (c : string) (n : Z),
             In (c, n) report <->
             0 < n /\ n = frequency c recipes))
  /\ (forall (count : Z) (src : Rand.source),
         let report := cuisine_report (fst (create_sample_recipes count src)) in
         Forall (fun line => In (fst line)
                               ["indian"; "chinese"; "italian"; "mexican";
                                "thai"; "international"]) report).
Proof.
  assert (Hgen : forall recipes : list Recipe,
             let d := count_cuisines recipes in
             (NoDup (keys d)
              /\ sum_counts d = Z.of_nat (List.length recipes)
              /\ (forall c, dict_get d c 0 = frequency c recipes)
              /\ (forall c, In c (keys d) <-> In c (map cuisine recipes)))
             /\ Sorted key_le (cuisine_report recipes)
             /\ Permutation (cuisine_report recipes) d).
  { intros recipes d. split.
    - destruct (count_loop recipes []) as [Hnd [Hsum [Hget Hkeys]]];
        [constructor|].
      fold (count_cuisines recipes) in Hnd, Hsum, Hget, Hkeys. fold d in Hnd, Hsum, Hget, Hkeys.
      split; [exact Hnd|]. split; [exact Hsum|]. split.
      + intros c. now rewrite Hget.
      + intros c. rewrite Hkeys. simpl. tauto.
    - apply sorted_spec. }
  split.
  - intros recipes report.
    destruct (Hgen recipes) as [[Hnd [Hsum [Hget Hkeys]]] [Hsorted Hperm]].
    fold report in Hsorted, Hperm.
    set (d := count_cuisines recipes) in *.
    split; [now rewrite (sum_counts_perm _ _ Hperm)|]. split.
    + apply strictly_sorted; [exact Hsorted|].
      apply (Permutation_NoDup (l := keys d)); [|exact Hnd].
      unfold keys. symmetry. now apply Permutation_map.
    + intros c n. split.
      * intros Hin. apply (Permutation_in _ Hperm) in Hin.
        assert (Hn : n = frequency c recipes)
          by (rewrite <- Hget; symmetry; now apply dict_get_In).
        split; [|exact Hn]. rewrite Hn. apply frequency_positive, Hkeys.
        change (In (fst (c, n)) (map fst d)). now apply in_map.
      * intros [Hpos Hn]. rewrite Hn in Hpos.
        apply frequency_positive, Hkeys, keys_In in Hpos as [n' Hin].
        assert (Hn' : n' = n)
          by (rewrite Hn, <- Hget; symmetry; now apply dict_get_In).
        subst n'. apply (Permutation_in _ (Permutation_sym Hperm)), Hin.
  - intros count src report.
    set (recipes := fst (create_sample_recipes count src)) in *.
    destruct (Hgen recipes) as [[_ [_ [_ Hkeys]]] [_ Hperm]].
    fold report in Hperm.
    pose proof (sample_loop_cuisines (Z.to_nat count) 0 [] src
                  (Forall_nil _)) as Hall.
    change (fst (sample_loop (Z.to_nat count) 0 [] src)) with recipes in Hall.
    rewrite Forall_forall in *. intros [c n] Hin. cbn [fst].
    apply (Permutation_in _ Hperm) in Hin.
    assert (Hc : In c (map cuisine recipes)).
    { apply Hkeys. change (In (fst (c, n)) (map fst (count_cuisines recipes))).
      now apply in_map. }
    apply in_map_iff in Hc as [r [<- Hr]]. now apply Hall.
Qed.

Lemma cuisine_report_partition_witness :
  In ("mexican", 2) (cuisine_report (fst (create_sample_recipes 4 (fun n => n)))).
Proof.
  destruct cuisine_report_partition as [H _].
  apply (proj2 (proj2 (H (fst (create_sample_recipes 4 (fun n => n)))))).
  split; [lia | vm_compute; reflexivity].
Defined.

(** * Further properties *)

(** ** Ingredient names: trimming, articles, punctuation *)

Lemma lstrip_length (s : string) :
  (String.length (lstrip s) <= String.length s)%nat.
Proof.
  induction s as [|c s IH]; simpl; [lia|].
  destruct (is_space c); simpl; lia.
Qed.

Lemma rstrip_length (s : string) :
  (String.length (rstrip s) <= String.length s)%nat.
Proof.
  induction s as [|c s IH]; [simpl; lia|].
  destruct (rstrip_cases c s) as [[_ E] | E]; rewrite E; simpl; lia.
Qed.

Lemma filter_length (p : ascii -> bool) (s : string) :
  (String.length (PyStr.filter p s) <= String.length s)%nat.
Proof.
  induction s as [|c s IH]; simpl; [lia|].
  destruct (p c); simpl; lia.
Qed.

Lemma lower_length (s : string) : String.length (lower s) = String.length s.
Proof. induction s; simpl; congruence. Qed.

Lemma lstrip_fixed_head (s : string) (c : ascii) :
  lstrip s = s -> head s = Some c -> is_space c = false.
Proof.
  destruct s as [|d s]; [discriminate|]. intros H [= ->].
  simpl in H. destruct (is_space c) eqn:E; [|reflexivity].
  pose proof (lstrip_length s) as Hlen. rewrite H in Hlen.
  simpl in Hlen. lia.
Qed.

Lemma rstrip_fixed_last (s : string) (p : option ascii) (c : ascii) :
  rstrip s = s -> s <> "" -> last_opt p s = Some c -> is_space c = false.
Proof.
  revert p. induction s as [|d s IH]; intros p H Hne Hlast; [congruence|].
  destruct (rstrip_cases d s) as [[_ E] | E]; rewrite E in H;
    [discriminate|].
  injection H as H. destruct s as [|e s].
  - simpl in Hlast. injection Hlast as ->.
    simpl in E. destruct (is_space c); [discriminate E | reflexivity].
  - apply (IH (Some d)); [exact H | discriminate | exact Hlast].
Qed.

Lemma clean_ingredient_name_stripped (s : string) :
  lstrip (clean_ingredient_name s) = clean_ingredient_name s
  /\ rstrip (clean_ingredient_name s) = clean_ingredient_name s.
Proof.
  unfold clean_ingredient_name, strip. split.
  - apply lstrip_rstrip, lstrip_idem.
  - apply rstrip_idem.
Qed.

(** X1: a cleaned name neither starts nor ends with a whitespace
    character. *)
Theorem clean_ingredient_name_trimmed :
  forall (s : string) (c : ascii),
    (head (clean_ingredient_name s) = Some c -> is_space c = false)
    /\ (last_opt None (clean_ingredient_name s) = Some c ->
        is_space c = false).
Proof.
  intros s c. destruct (clean_ingredient_name_stripped s) as [Hl Hr].
  split.
  - now apply lstrip_fixed_head.
  - intros Hlast. apply (rstrip_fixed_last _ None c Hr); [|exact Hlast].
    intros E. rewrite E in Hlast. discriminate.
Qed.

Lemma clean_ingredient_name_trimmed_witness :
  is_space "o" = false.
Proof.
  apply (proj2 (clean_ingredient_name_trimmed "  The Potato  " "o")).
  reflexivity.
Defined.







Lemma alnum_of_lower (c : ascii) :
  is_alnum_az (lower_char c) = true -> is_alnum_az c = true.
Proof. ascii_cases c. Qed.

Lemma plain_not_alnum_is_space (c : ascii) :
  plain_char c = true -> is_alnum_az c = false -> is_space c = true.
Proof. ascii_cases c. Qed.

Lemma lstrip_spaces (s : string) :
  PyStr.forallb is_space s = true -> lstrip s = "".
Proof.
  induction s as [|c s IH]; intros H; [reflexivity|].
  simpl in H. apply andb_true_iff in H as [Hc H]. simpl. now rewrite Hc, IH.
Qed.

(** X3: a name without any ASCII letter or digit (empty, blank or made of
    symbols) is cleaned to the empty string. *)
Theorem clean_ingredient_name_symbols_only :
  forall s : string,
    PyStr.forallb (fun c => negb (is_alnum_az c)) s = true ->
    clean_ingredient_name s = "".
Proof.
  intros s Hs.
  assert (Hsp : PyStr.forallb is_space (remove_special (lower s)) = true).
  { unfold remove_special. induction s as [|c s IH]; [reflexivity|].
    simpl in Hs. apply andb_true_iff in Hs as [Hc Hs].
    apply negb_true_iff in Hc. simpl.
    destruct (plain_char (lower_char c)) eqn:Hp; [|now apply IH].
    simpl. rewrite IH by exact Hs. rewrite andb_true_r.
    apply plain_not_alnum_is_space; [exact Hp|].
    destruct (is_alnum_az (lower_char c)) eqn:E; [|reflexivity].
    apply alnum_of_lower in E. congruence. }
  unfold clean_ingredient_name, strip. now rewrite (lstrip_spaces _ Hsp).
Qed.

Lemma clean_ingredient_name_symbols_only_witness :
  clean_ingredient_name " -- (!) -- " = "".
Proof.
  apply clean_ingredient_name_symbols_only. reflexivity.
Defined.

(** X4: cleaning never makes a name longer. *)
Theorem clean_ingredient_name_length :
  forall s : string,
    (String.length (clean_ingredient_name s) <= String.length s)%nat.
Proof.
  intros s. unfold clean_ingredient_name, strip, remove_articles,
    remove_special.
  set (u := rstrip (lstrip (PyStr.filter plain_char (lower s)))).
  pose proof (rstrip_length (lstrip (sub_articles None 0 u))).
  pose proof (lstrip_length (sub_articles None 0 u)).
  pose proof (sub_articles_length None 0 u).
  pose proof (rstrip_length (lstrip (PyStr.filter plain_char (lower s)))).
  pose proof (lstrip_length (PyStr.filter plain_char (lower s))).
  pose proof (filter_length plain_char (lower s)).
  pose proof (lower_length s). fold u in H2. lia.
Qed.

Lemma lower_char_idem (c : ascii) : lower_char (lower_char c) = lower_char c.
Proof. ascii_cases c. Qed.

Lemma lower_idem (s : string) : lower (lower s) = lower s.
Proof.
  induction s as [|c s IH]; [reflexivity|].
  simpl. now rewrite lower_char_idem, IH.
Qed.

Lemma plain_char_lower (c : ascii) :
  plain_char (lower_char c) = plain_char c.
Proof. ascii_cases c. Qed.

Lemma filter_app (p : ascii -> bool) (a b : string) :
  PyStr.filter p (a ++ b) = PyStr.filter p a ++ PyStr.filter p b.
Proof.
  induction a as [|c a IH]; [reflexivity|].
  simpl. destruct (p c); simpl; now rewrite IH.
Qed.

(** X5: the case of the letters does not matter, and a character outside
    [[a-zA-Z0-9\s]] does not matter wherever it stands. *)
Theorem clean_ingredient_name_ignores :
  (forall s t : string,
      lower s = lower t -> clean_ingredient_name s = clean_ingredient_name t)
  /\ (forall (a b : string) (c : ascii),
         plain_char c = false ->
         clean_ingredient_name (a ++ String c b)
         = clean_ingredient_name (a ++ b)).
Proof.
  split.
  - intros s t H. unfold clean_ingredient_name. now rewrite H.
  - intros a b c Hc. unfold clean_ingredient_name, remove_special.
    rewrite !lower_app, !filter_app. simpl.
    now rewrite plain_char_lower, Hc.
Qed.

Lemma clean_ingredient_name_ignores_witness :
  clean_ingredient_name "Sea-Salt" = clean_ingredient_name "seasalt".
Proof.
  transitivity (clean_ingredient_name ("Sea" ++ "Salt")).
  - exact (proj2 clean_ingredient_name_ignores "Sea" "Salt" "-"%char eq_refl).
  - apply (proj1 clean_ingredient_name_ignores). reflexivity.
Defined.

(** ** Time strings: sign and round trip *)

Lemma digit_value_nonneg (c : ascii) :
  is_decimal c = true -> 0 <= digit_value c.
Proof. ascii_cases c. Qed.

Lemma decimal_value_nonneg (s : string) :
  all_digits s -> 0 <= decimal_value s.
Proof.
  unfold all_digits. induction s as [|c s IH]; intros H; [simpl; lia|].
  simpl in H. apply andb_true_iff in H as [Hc H].
  cbn [decimal_value]. pose proof (digit_value_nonneg c Hc).
  specialize (IH H).
  assert (0 <= 10 ^ Z.of_nat (String.length s)) by (apply Z.pow_nonneg; lia).
  nia.
Qed.

(** X6: the number of minutes that [parse_time] returns is never
    negative, whatever the time string. *)
Theorem parse_time_nonneg :
  forall (time_str : option string) (minutes : Z),
    parse_time time_str = Some minutes -> 0 <= minutes.
Proof.
  intros [s|] minutes; [|simpl; intros [= <-]; lia]. unfold parse_time.
  destruct (is_empty s); [intros [= <-]; lia|].
  destruct (first_run_exists s) as [Hnone | [pre [run [post [-> H]]]]].
  - rewrite (findall_digits_none false s Hnone). intros [= <-]. lia.
  - destruct H as [Hpre [Hne [Hrun Hpost]]].
    destruct (findall_digits_first pre run post Hpre Hne Hrun Hpost)
      as [others ->].
    unfold int. destruct (_ <? _); [discriminate|].
    rewrite int_value. pose proof (decimal_value_nonneg run Hrun).
    destruct (_ || _); intros [= <-]; lia.
Qed.

Lemma parse_time_nonneg_witness : 0 <= 60.
Proof.
  apply (parse_time_nonneg (Some "1 1/2 hrs") 60). reflexivity.
Defined.

Lemma all_digits_str_of_nat (n : nat) : all_digits (str_of_nat n).
Proof.
  unfold str_of_nat, NilZero.string_of_uint.
  destruct (Nat.to_uint n) eqn:E; try reflexivity;
    rewrite <- E; apply all_digits_uint.
Qed.

Lemma str_of_nat_nonempty (n : nat) : str_of_nat n <> "".
Proof.
  unfold str_of_nat, NilZero.string_of_uint.
  destruct (Nat.to_uint n); discriminate.
Qed.

Lemma digits_lower (s : string) : all_digits s -> lower s = s.
Proof.
  unfold all_digits. induction s as [|c s IH]; intros H; [reflexivity|].
  simpl in H. apply andb_true_iff in H as [Hc H]. simpl.
  rewrite IH by exact H. f_equal. revert Hc. ascii_cases c.
Qed.

(** A word that starts with a letter is found after a run of digits only
    where the run has ended. *)
Lemma str_in_after_digits (x : ascii) (w d t : string) :
  is_decimal x = false -> all_digits d ->
  str_in (String x w) (d ++ t) = str_in (String x w) t.
Proof.
  unfold all_digits. intros Hx. induction d as [|c d IH]; intros Hd;
    [reflexivity|].
  simpl in Hd. apply andb_true_iff in Hd as [Hc Hd].
  change (String c d ++ t) with (String c (d ++ t)).
  cbn [str_in prefix]. rewrite IH by exact Hd.
  destruct (ascii_dec x c) as [->|]; [congruence | reflexivity].
Qed.

(** X7: a number written in decimal is read back: [parse_time] of the
    decimal digits of [n], at most 4300 of them, followed by any text
    without a digit and without "hour" or "hr", is [n]. *)
Theorem parse_time_round_trip :
  forall (n : nat) (suffix : string),
    Z.of_nat (String.length (str_of_nat n)) <= 4300 ->
    no_digit suffix ->
    ~ occurs_ci "hour" suffix -> ~ occurs_ci "hr" suffix ->
    parse_time (Some (str_of_nat n ++ suffix)) = Some (Z.of_nat n).
Proof.
  intros n suffix Hlen Hnd Hhour Hhr.
  pose proof (all_digits_str_of_nat n) as Hd.
  pose proof (str_of_nat_nonempty n) as Hne.
  assert (Hfirst : no_digit_first suffix).
  { destruct suffix as [|c suffix]; [exact I|].
    unfold no_digit in Hnd. simpl in Hnd |- *.
    apply andb_true_iff in Hnd as [Hc _]. now apply negb_true_iff in Hc. }
  destruct (findall_digits_first "" (str_of_nat n) suffix eq_refl Hne Hd Hfirst)
    as [others Hfind].
  change ("" ++ str_of_nat n ++ suffix) with (str_of_nat n ++ suffix) in Hfind.
  unfold parse_time. rewrite Hfind.
  assert (Hs : is_empty (str_of_nat n ++ suffix) = false).
  { destruct (str_of_nat n); [congruence | reflexivity]. }
  rewrite Hs, (int_within_limit _ Hlen), lower_app, (digits_lower _ Hd).
  rewrite !str_in_after_digits by (reflexivity || exact Hd).
  assert (H1 : str_in "hour" (lower suffix) = false).
  { destruct (str_in "hour" (lower suffix)) eqn:E; [|reflexivity].
    apply str_in_lower_iff in E. contradiction. }
  assert (H2 : str_in "hr" (lower suffix) = false).
  { destruct (str_in "hr" (lower suffix)) eqn:E; [|reflexivity].
    apply str_in_lower_iff in E. contradiction. }
  rewrite H1, H2. cbn [orb]. f_equal.
  rewrite <- int_value. apply int_str_of_nat.
Qed.

Lemma parse_time_round_trip_witness :
  parse_time (Some (str_of_nat 75 ++ " min")) = Some 75.
Proof.
  apply (parse_time_round_trip 75 " min");
    [vm_compute; discriminate | reflexivity | |];
    intros H; apply str_in_lower_iff in H; discriminate H.
Defined.

(** ** Classifiers: order, labels, case, table *)

(** X8: more steps or more time never gives an easier label. *)
Theorem determine_difficulty_monotone :
  forall steps1 time1 steps2 time2 : Z,
    steps1 <= steps2 -> time1 <= time2 ->
    difficulty_rank (determine_difficulty steps1 time1)
    <= difficulty_rank (determine_difficulty steps2 time2).
Proof.
  intros s1 t1 s2 t2 Hs Ht. unfold determine_difficulty.
  destruct (Z.leb_spec s1 5), (Z.leb_spec t1 30), (Z.leb_spec s1 10),
    (Z.leb_spec t1 60), (Z.leb_spec s2 5), (Z.leb_spec t2 30),
    (Z.leb_spec s2 10), (Z.leb_spec t2 60);
    cbn; lia.
Qed.

Lemma determine_difficulty_monotone_witness :
  difficulty_rank (determine_difficulty 4 25)
  <= difficulty_rank (determine_difficulty 4 45).
Proof.
  apply determine_difficulty_monotone; lia.
Defined.

Lemma first_cuisine_label (table : list (string * list string))
  (text : string) :
  In (first_cuisine table text) ("international" :: map fst table).
Proof.
  induction table as [|[c kws] table IH]; simpl; [auto|].
  destruct (any_in kws text); simpl; [auto|].
  destruct IH as [H | H]; auto.
Qed.

Lemma extract_dietary_tags_filter (ingredients keywords : list string) :
  let tags := extract_dietary_tags ingredients keywords in
  tags = List.filter (fun t => mem t tags) tag_order.
Proof.
  intros tags.
  pose proof (extract_dietary_tags_closed_form ingredients keywords) as Hcf.
  cbv zeta in Hcf. fold tags in Hcf.
  set (kt := keywords_text keywords) in *.
  set (carb := str_in "low-carb" kt || str_in "low carb" kt) in *.
  destruct (picked_tags (negb (has_meat ingredients))
              (negb (has_meat ingredients) && negb (has_dairy ingredients))
              (str_in "gluten-free" kt || str_in "gluten free" kt)
              (str_in "keto" kt || carb) carb)
    as [_ [Hord _]].
  cbv zeta in Hord. now rewrite <- Hcf in Hord.
Qed.

(** X9: each classifier answers within the labels that the sample
    generator draws from: three difficulties, four meal types, six
    cuisines, five dietary tags. *)
Theorem classifier_labels :
  (forall steps time : Z,
      In (determine_difficulty steps time) sample_difficulties)
  /\ (forall (keywords : list string) (name : string),
         In (determine_meal_type keywords name) sample_meal_types)
  /\ (forall (keywords : list string) (name : string),
         In (extract_cuisine keywords name) sample_cuisines)
  /\ (forall (ingredients keywords : list string) (t : string),
         In t (extract_dietary_tags ingredients keywords) ->
         In t sample_tags).
Proof.
  repeat split.
  - intros steps time. unfold determine_difficulty.
    destruct (_ && _); [simpl; auto|]. destruct (_ && _); simpl; auto.
  - intros keywords name. unfold determine_meal_type.
    destruct (any_in breakfast_words _); [simpl; auto|].
    destruct (any_in dinner_words _); [simpl; auto|].
    destruct (any_in snack_words _); simpl; auto.
  - intros keywords name. unfold extract_cuisine.
    pose proof (first_cuisine_label cuisines (search_text keywords name)) as H.
    simpl in H |- *. intuition.
  - intros ingredients keywords t Hin.
    rewrite (extract_dietary_tags_filter ingredients keywords) in Hin.
    apply filter_In in Hin as [Hin _]. exact Hin.
Qed.

Lemma classifier_labels_witness :
  In "keto" sample_tags.
Proof.
  apply (proj2 (proj2 (proj2 classifier_labels)) ["beef"] ["Keto dinner"]).
  simpl. auto.
Defined.

Lemma lower_concat (sep : string) (l : list string) :
  lower (String.concat sep l) = String.concat (lower sep) (map lower l).
Proof.
  induction l as [|x l IH]; [reflexivity|].
  destruct l as [|y l]; [reflexivity|].
  change (String.concat sep (x :: y :: l))
    with (x ++ sep ++ String.concat sep (y :: l)).
  change (String.concat (lower sep) (map lower (x :: y :: l)))
    with (lower x ++ lower sep
          ++ String.concat (lower sep) (map lower (y :: l))).
  now rewrite !lower_app, IH.
Qed.

Lemma lower_join_lower (l : list string) :
  lower (join " " (map lower l)) = lower (join " " l).
Proof.
  unfold join. rewrite !lower_concat, map_map. f_equal.
  apply map_ext. intros x. apply lower_idem.
Qed.

(** X10: the classifiers that read text ignore the case of the letters:
    lowercasing the keywords, the name and the ingredients beforehand
    changes no answer. *)
Theorem classifiers_ignore_case :
  forall (ingredients keywords : list string) (name : string),
    determine_meal_type (map lower keywords) (lower name)
    = determine_meal_type keywords name
    /\ extract_cuisine (map lower keywords) (lower name)
       = extract_cuisine keywords name
    /\ extract_dietary_tags (map lower ingredients) (map lower keywords)
       = extract_dietary_tags ingredients keywords.
Proof.
  intros ingredients keywords name.
  assert (Htext : search_text (map lower keywords) (lower name)
                  = search_text keywords name)
    by (unfold search_text; now rewrite lower_join_lower, lower_idem).
  split; [|split].
  - unfold determine_meal_type. now rewrite Htext.
  - unfold extract_cuisine. now rewrite Htext.
  - unfold extract_dietary_tags, has_meat, has_dairy, ingredients_text,
      keywords_text.
    now rewrite !lower_join_lower.
Qed.

Lemma occurs_longer (a w b t : string) : occurs (a ++ w ++ b) t -> occurs w t.
Proof.
  intros [x [y ->]]. exists (x ++ a), (b ++ y).
  now rewrite !append_assoc.
Qed.

Lemma any_in_app (l1 l2 : list string) (t : string) :
  any_in (l1 ++ l2) t = any_in l1 t || any_in l2 t.
Proof. unfold any_in. apply existsb_app. Qed.

(** X11: the answer is "thai" exactly when the text has "thai" and no
    keyword of the four cuisines tried before it; the keywords "pad thai"
    and "curry thai" add nothing, and a text with "curry" is never thai. *)
Theorem extract_cuisine_thai :
  forall (keywords : list string) (name : string),
    let text := lower (join " " keywords) ++ " " ++ lower name in
    extract_cuisine keywords name = "thai" <->
    occurs "thai" text
    /\ ~ some_occurs
           ["indian"; "curry"; "masala"; "tandoori"; "biryani";
            "chinese"; "szechuan"; "cantonese"; "wok";
            "italian"; "pasta"; "pizza"; "risotto";
            "mexican"; "taco"; "burrito"; "enchilada"; "salsa"] text.
Proof.
  intros keywords name text.
  unfold extract_cuisine. change (search_text keywords name) with text.
  rewrite <- any_in_false.
  change ["indian"; "curry"; "masala"; "tandoori"; "biryani";
          "chinese"; "szechuan"; "cantonese"; "wok";
          "italian"; "pasta"; "pizza"; "risotto";
          "mexican"; "taco"; "burrito"; "enchilada"; "salsa"]
    with (["indian"; "curry"; "masala"; "tandoori"; "biryani"]
          ++ ["chinese"; "szechuan"; "cantonese"; "wok"]
          ++ ["italian"; "pasta"; "pizza"; "risotto"]
          ++ ["mexican"; "taco"; "burrito"; "enchilada"; "salsa"])%list.
  rewrite !any_in_app. unfold cuisines. cbn [first_cuisine].
  destruct (any_in ["indian"; "curry"; "masala"; "tandoori"; "biryani"] text);
    [split; [discriminate | intros [_ H]; discriminate H]|].
  destruct (any_in ["chinese"; "szechuan"; "cantonese"; "wok"] text);
    [split; [discriminate | intros [_ H]; discriminate H]|].
  destruct (any_in ["italian"; "pasta"; "pizza"; "risotto"] text);
    [split; [discriminate | intros [_ H]; discriminate H]|].
  destruct (any_in ["mexican"; "taco"; "burrito"; "enchilada"; "salsa"] text);
    [split; [discriminate | intros [_ H]; discriminate H]|].
  cbn [orb].
  destruct (any_in ["thai"; "pad thai"; "curry thai"] text) eqn:E.
  - split; [|reflexivity]. intros _. split; [|reflexivity].
    apply any_in_iff in E as [w [Hw Ho]].
    destruct Hw as [<- | [<- | [<- | []]]].
    + exact Ho.
    + apply (occurs_longer "pad " "thai" ""). exact Ho.
    + apply (occurs_longer "curry " "thai" ""). exact Ho.
  - split; [discriminate|]. intros [Ho _]. exfalso.
    apply any_in_false in E. apply E. exists "thai". simpl. auto.
Qed.

Lemma extract_cuisine_thai_witness :
  extract_cuisine ["Street food"] "Pad Thai" = "thai".
Proof.
  apply (extract_cuisine_thai ["Street food"] "Pad Thai"). split.
  - exists "street food pad ", "". reflexivity.
  - apply any_in_false. reflexivity.
Defined.

Lemma extract_dietary_tags_mem (ingredients keywords : list string) :
  let kt := keywords_text keywords in
  let carb := str_in "low-carb" kt || str_in "low carb" kt in
  let tags := extract_dietary_tags ingredients keywords in
  mem "keto" tags = str_in "keto" kt || carb
  /\ mem "low-carb" tags = carb.
Proof.
  intros kt carb tags.
  pose proof (extract_dietary_tags_closed_form ingredients keywords) as Hcf.
  cbv zeta in Hcf. fold tags kt carb in Hcf.
  destruct (picked_tags (negb (has_meat ingredients))
              (negb (has_meat ingredients) && negb (has_dairy ingredients))
              (str_in "gluten-free" kt || str_in "gluten free" kt)
              (str_in "keto" kt || carb) carb)
    as [[_ [_ [_ [Hk Hl]]]] _].
  cbv zeta in Hk, Hl. rewrite <- Hcf in Hk, Hl. now split.
Qed.

(** X12: the tag "low-carb" never comes without the tag "keto". *)
Theorem extract_dietary_tags_low_carb_keto :
  forall ingredients keywords : list string,
    In "low-carb" (extract_dietary_tags ingredients keywords) ->
    In "keto" (extract_dietary_tags ingredients keywords).
Proof.
  intros ingredients keywords.
  destruct (extract_dietary_tags_mem ingredients keywords) as [Hk Hl].
  cbv zeta in Hk, Hl. rewrite <- !mem_iff, Hk, Hl.
  intros ->. apply orb_true_r.
Qed.

Lemma extract_dietary_tags_low_carb_keto_witness :
  In "keto" (extract_dietary_tags ["pork"] ["Low-Carb"]).
Proof.
  apply extract_dietary_tags_low_carb_keto. simpl. auto.
Defined.

(** X13: the tags are those that the ingredients alone give, followed by
    those that the keywords alone give (meat among the ingredients rules
    out both ingredient tags); in particular a recipe without ingredients
    is always tagged vegetarian and vegan. *)
Theorem extract_dietary_tags_split :
  forall ingredients keywords : list string,
    extract_dietary_tags ingredients keywords
    = (extract_dietary_tags ingredients []
       ++ extract_dietary_tags ["chicken"] keywords)%list
    /\ extract_dietary_tags [] keywords
       = "vegetarian" :: "vegan" :: extract_dietary_tags ["chicken"] keywords.
Proof.
  intros ingredients keywords.
  rewrite (extract_dietary_tags_closed_form ingredients keywords).
  rewrite (extract_dietary_tags_closed_form ingredients []).
  rewrite (extract_dietary_tags_closed_form ["chicken"] keywords).
  rewrite (extract_dietary_tags_closed_form [] keywords).
  cbv zeta.
  change (has_meat ["chicken"]) with true.
  change (has_meat []) with false. change (has_dairy []) with false.
  change (keywords_text []) with "".
  cbn [negb andb pick str_in prefix orb app].
  split; [|reflexivity].
  now rewrite app_nil_r, <- app_assoc.
Qed.

(** ** The random draws *)

Lemma choice_spec (seq : list string) (src : Rand.source) :
  seq <> [] -> In (fst (Rand.choice seq src)) seq.
Proof.
  intros Hne. unfold Rand.choice, Rand.bind, Rand.randbelow, Rand.ret.
  cbn [fst]. apply nth_In. apply Nat.mod_upper_bound.
  destruct seq; [congruence | discriminate].
Qed.

Lemma randint_spec (a b : Z) (src : Rand.source) :
  a <= b -> a <= fst (Rand.randint a b src) <= b.
Proof.
  intros Hab. unfold Rand.randint, Rand.bind, Rand.randbelow, Rand.ret.
  cbn [fst].
  pose proof (Nat.mod_upper_bound (src 0%nat) (Z.to_nat (b - a + 1))).
  lia.
Qed.

Lemma firstn_succ_nth (l : list string) (m : nat) :
  (m < List.length l)%nat ->
  firstn (S m) l = (firstn m l ++ [nth m l EmptyString])%list.
Proof.
  revert m. induction l as [|h t IH]; intros m Hm; [simpl in Hm; lia|].
  destruct m as [|m]; [reflexivity|].
  simpl in Hm. cbn [firstn nth app]. f_equal. apply IH. lia.
Qed.

(** One draw of the selection loop moves an item of the pool to the
    result, and loses none. *)
Lemma pool_step (pool : list string) (j n : nat) :
  (j < n)%nat -> (n <= List.length pool)%nat ->
  Permutation
    (firstn (Nat.pred n)
       (Rand.set_nth j (nth (Nat.pred n) pool EmptyString) pool)
     ++ [nth j pool EmptyString])
    (firstn n pool).
Proof.
  revert j n. induction pool as [|h t IH]; intros j n Hj Hn;
    [simpl in Hn; lia|].
  destruct n as [|m]; [lia|]. cbn [Nat.pred]. simpl in Hn.
  destruct j as [|j].
  - destruct m as [|m]; [reflexivity|].
    change (firstn (S (S m)) (h :: t)) with (h :: firstn (S m) t).
    rewrite (firstn_succ_nth t m) by lia.
    change (Rand.set_nth 0 (nth (S m) (h :: t) EmptyString) (h :: t))
      with (nth m t EmptyString :: t).
    change (firstn (S m) (nth m t EmptyString :: t))
      with (nth m t EmptyString :: firstn m t).
    cbn [nth app].
    apply Permutation_trans
      with (nth m t EmptyString :: h :: firstn m t).
    + apply perm_skip. symmetry. apply Permutation_cons_append.
    + rewrite perm_swap. apply perm_skip. apply Permutation_cons_append.
  - destruct m as [|m]; [lia|].
    change (firstn (S (S m)) (h :: t)) with (h :: firstn (S m) t).
    change (Rand.set_nth (S j) (nth (S m) (h :: t) EmptyString) (h :: t))
      with (h :: Rand.set_nth j (nth m t EmptyString) t).
    change (firstn (S m) (h :: Rand.set_nth j (nth m t EmptyString) t))
      with (h :: firstn m (Rand.set_nth j (nth m t EmptyString) t)).
    cbn [nth app]. apply perm_skip.
    apply (IH j (S m)); lia.
Qed.

Lemma sample_from_spec (k n : nat) (pool result : list string)
  (src : Rand.source) :
  (k <= n)%nat -> (n <= List.length pool)%nat ->
  exists chosen rest,
    fst (Rand.sample_from k n pool result src) = (result ++ chosen)%list
    /\ List.length chosen = k
    /\ Permutation (firstn n pool) (chosen ++ rest).
Proof.
  revert n pool result src.
  induction k as [|k IH]; intros n pool result src Hk Hn.
  - exists [], (firstn n pool). simpl. rewrite app_nil_r. auto.
  - cbn [Rand.sample_from]. unfold Rand.bind, Rand.randbelow.
    set (j := Nat.modulo (src 0%nat) n).
    assert (Hj : (j < n)%nat) by (apply Nat.mod_upper_bound; lia).
    set (pool' := Rand.set_nth j (nth (Nat.pred n) pool EmptyString) pool).
    assert (Hlen : List.length pool' = List.length pool).
    { unfold pool'. generalize (nth (Nat.pred n) pool EmptyString).
      generalize j. clear. induction pool as [|h t IHt]; intros j x;
        destruct j; simpl; auto. }
    destruct (IH (Nat.pred n) pool' (result ++ [nth j pool EmptyString])%list
                (fun i => src (S i)))
      as [chosen [rest [Hrun [Hcount Hperm]]]]; [lia | lia |].
    exists (nth j pool EmptyString :: chosen), rest.
    split; [rewrite Hrun, <- app_assoc; reflexivity|].
    split; [simpl; lia|].
    rewrite <- (pool_step pool j n Hj Hn). fold pool'. rewrite Hperm.
    cbn [app]. rewrite <- Permutation_middle, app_nil_r. reflexivity.
Qed.

Lemma sample_spec (population : list string) (k : Z) (src : Rand.source) :
  NoDup population -> (Z.to_nat k <= List.length population)%nat ->
  let chosen := fst (Rand.sample population k src) in
  List.length chosen = Z.to_nat k
  /\ NoDup chosen
  /\ (forall x, In x chosen -> In x population).
Proof.
  intros Hnd Hk chosen.
  destruct (sample_from_spec (Z.to_nat k) (List.length population)
              population [] src Hk (le_n _))
    as [picked [rest [Hrun [Hcount Hperm]]]].
  unfold chosen, Rand.sample. rewrite Hrun. cbn [app].
  rewrite firstn_all in Hperm.
  split; [exact Hcount|]. split.
  - apply (Permutation_NoDup Hperm) in Hnd. now apply NoDup_app_remove_r in Hnd.
  - intros x Hx. apply (Permutation_in x (Permutation_sym Hperm)).
    apply in_or_app. now left.
Qed.

(** ** Sample generator: what every record looks like *)

(** Runs the draws of one loop body in order, keeping for each what the
    random source guarantees. *)
Ltac run_draws :=
  unfold sample_recipe, Rand.bind;
  repeat
    (match goal with
     | |- context [Rand.choice ?l ?s] =>
         let H := fresh "Hdraw" in
         pose proof (choice_spec l s ltac:(discriminate)) as H;
         destruct (Rand.choice l s) as [? ?]; cbn [fst] in H
     | |- context [Rand.randint ?a ?b ?s] =>
         let H := fresh "Hdraw" in
         pose proof (randint_spec a b s ltac:(lia)) as H;
         destruct (Rand.randint a b s) as [? ?]; cbn [fst] in H
     | |- context [Rand.sample ?p ?k ?s] =>
         let H := fresh "Hdraw" in
         pose proof (sample_spec p k s) as H;
         destruct (Rand.sample p k s) as [? ?]; cbv zeta in H; cbn [fst] in H
     end; cbv beta iota);
  unfold Rand.ret; cbn [fst].

Lemma sample_tags_NoDup : NoDup sample_tags.
Proof.
  unfold sample_tags.
  repeat (constructor; [simpl; intuition discriminate|]). constructor.
Qed.


Lemma sample_recipe_labelled (i : nat) (src : Rand.source) :
  labelled (fst (sample_recipe i src)).
Proof.
  run_draws. unfold labelled.
  cbn [cuisine difficulty mealType ingredients instructions image videoId].
  repeat split; assumption.
Qed.

Lemma sample_recipe_in_ranges (i : nat) (src : Rand.source) :
  in_ranges (fst (sample_recipe i src)).
Proof.
  run_draws. unfold in_ranges.
  cbn [prepTime cookTime totalTime servings nutrition calories protein carbs
       fats fiber sodium sugar].
  lia.
Qed.

Lemma sample_recipe_tagged (i : nat) (src : Rand.source) :
  tagged (fst (sample_recipe i src)).
Proof.
  run_draws. unfold tagged. cbn [dietaryTags].
  match goal with
  | H : NoDup sample_tags -> _ |- _ =>
      destruct (H sample_tags_NoDup) as [Hlen [Hnd Hin]]; [simpl; lia|]
  end.
  split; [lia|]. split; assumption.
Qed.

Lemma sample_recipe_described (i : nat) (src : Rand.source) :
  described (i + 1) (fst (sample_recipe i src)).
Proof.
  run_draws. unfold described. cbn [title description cuisine mealType].
  split; reflexivity.
Qed.

(** Every record of the result is the value of the loop body at its
    index, for the state that the random source had then. *)
Lemma sample_loop_nth (todo i : nat) (acc : list Recipe)
  (src : Rand.source) :
  exists fresh,
    fst (sample_loop todo i acc src) = (acc ++ fresh)%list
    /\ List.length fresh = todo
    /\ (forall j r, nth_error fresh j = Some r ->
                    exists src', r = fst (sample_recipe (i + j) src')).
Proof.
  revert i acc src. induction todo as [|todo IH]; intros i acc src.
  - exists []. rewrite app_nil_r. repeat split.
    intros [|j] r H; discriminate H.
  - cbn [sample_loop]. unfold Rand.bind.
    destruct (sample_recipe i src) as [recipe src'] eqn:E.
    destruct (IH (S i) (acc ++ [recipe])%list src')
      as [fresh [Hrun [Hlen Hnth]]].
    exists (recipe :: fresh). rewrite Hrun, <- app_assoc.
    split; [reflexivity|]. split; [simpl; lia|].
    intros [|j] r H.
    + injection H as <-. exists src. now rewrite Nat.add_0_r, E.
    + destruct (Hnth j r H) as [s Hs]. exists s.
      now rewrite Nat.add_succ_r.
Qed.

Lemma generated_nth (count : Z) (src : Rand.source) (j : nat) (r : Recipe) :
  nth_error (fst (create_sample_recipes count src)) j = Some r ->
  exists src', r = fst (sample_recipe j src').
Proof.
  unfold create_sample_recipes.
  destruct (sample_loop_nth (Z.to_nat count) 0 [] src)
    as [fresh [-> [_ Hnth]]].
  exact (Hnth j r).
Qed.

Lemma generated_Forall (P : Recipe -> Prop) (count : Z) (src : Rand.source) :
  (forall i s, P (fst (sample_recipe i s))) ->
  Forall P (fst (create_sample_recipes count src)).
Proof.
  intros HP. apply Forall_forall. intros r Hin.
  apply In_nth_error in Hin as [j Hj].
  destruct (generated_nth count src j r Hj) as [s ->]. apply HP.
Qed.


(** X15: in every generated record the numbers are within the ranges
    drawn: preparation 5..30, cooking 10..90, hence total 15..120,
    servings 2..6, and the seven nutrition values within theirs. *)
Theorem create_sample_recipes_in_ranges :
  forall (count : Z) (src : Rand.source),
    Forall in_ranges (fst (create_sample_recipes count src)).
Proof.
  intros count src. apply generated_Forall. exact sample_recipe_in_ranges.
Qed.

(** X16: every generated record has at most two dietary tags, without
    repetition, taken from vegetarian, vegan, gluten-free, keto,
    low-carb. *)
Theorem create_sample_recipes_tagged :
  forall (count : Z) (src : Rand.source),
    Forall tagged (fst (create_sample_recipes count src)).
Proof.
  intros count src. apply generated_Forall. exact sample_recipe_tagged.
Qed.

(** X17: the title of the record of rank k is "Sample", its cuisine
    capitalized, its meal type, "Recipe" and k; its description names the
    same cuisine and the meal type in lowercase. *)
Theorem create_sample_recipes_described :
  forall (count : Z) (src : Rand.source) (i : nat) (r : Recipe),
    nth_error (fst (create_sample_recipes count src)) i = Some r ->
    described (i + 1) r.
Proof.
  intros count src i r H.
  destruct (generated_nth count src i r H) as [s ->].
  apply sample_recipe_described.
Qed.

Lemma create_sample_recipes_described_witness :
  exists r,
    nth_error (fst (create_sample_recipes 2 (fun n => n))) 1 = Some r
    /\ title r = "Sample Mexican Lunch Recipe 2".
Proof.
  eexists. split; [reflexivity|].
  refine (eq_trans
            (proj1 (create_sample_recipes_described 2 (fun n => n) 1 _
                      eq_refl)) _).
  reflexivity.
Defined.

Lemma sample_loop_app (n m i : nat) (acc : list Recipe) (src : Rand.source) :
  sample_loop (n + m) i acc src
  = let (l, src') := sample_loop n i acc src in
    sample_loop m (i + n) l src'.
Proof.
  revert i acc src. induction n as [|n IH]; intros i acc src.
  - cbn. now rewrite Nat.add_0_r.
  - cbn [Nat.add sample_loop]. unfold Rand.bind.
    destruct (sample_recipe i src) as [recipe src'].
    rewrite IH. now rewrite Nat.add_succ_r.
Qed.

(** X18: asking for more recipes only adds records at the end: the first
    [a] records of a run for [b >= a] recipes are the run for [a] recipes
    from the same random source. *)
Theorem create_sample_recipes_prefix :
  forall (a b : Z) (src : Rand.source),
    0 <= a <= b ->
    fst (create_sample_recipes a src)
    = firstn (Z.to_nat a) (fst (create_sample_recipes b src)).
Proof.
  intros a b src Hab. unfold create_sample_recipes.
  replace (Z.to_nat b) with (Z.to_nat a + Z.to_nat (b - a))%nat by lia.
  rewrite sample_loop_app.
  destruct (sample_loop_nth (Z.to_nat a) 0 [] src) as [first [Hrun [Hlen _]]].
  destruct (sample_loop (Z.to_nat a) 0 [] src) as [l src'].
  cbn [fst app] in Hrun. subst l.
  destruct (sample_loop_nth (Z.to_nat (b - a)) (0 + Z.to_nat a) first src')
    as [more [-> _]].
  cbn [fst]. rewrite <- Hlen, firstn_app, firstn_all, Nat.sub_diag.
  cbn [firstn]. now rewrite app_nil_r.
Qed.

Lemma create_sample_recipes_prefix_witness :
  fst (create_sample_recipes 2 (fun n => n))
  = firstn 2 (fst (create_sample_recipes 5 (fun n => n))).
Proof.
  apply (create_sample_recipes_prefix 2 5 (fun n => n)). lia.
Defined.

(** ** Cuisine statistics: size and order *)

(** What the report holds, for any list of recipes. *)
Lemma report_facts (recipes : list Recipe) :
  let report := cuisine_report recipes in
  NoDup (keys report)
  /\ StronglySorted key_lt report
  /\ (forall c n, In (c, n) report <-> 0 < n /\ n = frequency c recipes).
Proof.
  intros report.
  destruct (count_loop recipes []) as [Hnd [_ [Hget Hkeys]]]; [constructor|].
  fold (count_cuisines recipes) in Hnd, Hget, Hkeys.
  set (d := count_cuisines recipes) in *.
  destruct (sorted_spec d) as [Hsorted Hperm].
  fold (cuisine_report recipes) in Hsorted, Hperm. fold report in Hsorted, Hperm.
  assert (Hndr : NoDup (keys report)).
  { apply (Permutation_NoDup (l := keys d)); [|exact Hnd].
    unfold keys. symmetry. now apply Permutation_map. }
  split; [exact Hndr|]. split; [now apply strictly_sorted|].
  intros c n. split.
  - intros Hin. apply (Permutation_in _ Hperm) in Hin.
    assert (Hn : n = frequency c recipes).
    { rewrite <- (dict_get_In d c n Hnd Hin), Hget. simpl. lia. }
    split; [|exact Hn]. rewrite Hn. apply frequency_positive.
    assert (Hk : In c (keys d))
      by (change (In (fst (c, n)) (map fst d)); now apply in_map).
    apply Hkeys in Hk as [[] | Hk]. exact Hk.
  - intros [Hpos Hn]. rewrite Hn in Hpos.
    apply frequency_positive in Hpos.
    assert (Hk : In c (keys d)) by (apply Hkeys; now right).
    apply keys_In in Hk as [n' Hin].
    assert (Hn' : n' = n).
    { rewrite Hn, <- (dict_get_In d c n' Hnd Hin), Hget. simpl. lia. }
    subst n'. apply (Permutation_in _ (Permutation_sym Hperm)), Hin.
Qed.

Lemma string_compare_refl (a : string) : String.compare a a = Eq.
Proof.
  induction a as [|c a IH]; [reflexivity|].
  simpl. unfold Ascii.compare. now rewrite N.compare_refl.
Qed.

Lemma key_lt_irrefl (x : string * Z) : ~ key_lt x x.
Proof. unfold key_lt. rewrite string_compare_refl. discriminate. Qed.

Lemma key_lt_asym (x y : string * Z) : key_lt x y -> ~ key_lt y x.
Proof.
  unfold key_lt. intros H H'. rewrite String.compare_antisym, H in H'.
  discriminate H'.
Qed.

(** Two lists in strictly increasing order with the same elements are the
    same list. *)
Lemma strictly_sorted_unique (l1 l2 : list (string * Z)) :
  StronglySorted key_lt l1 -> StronglySorted key_lt l2 ->
  (forall x, In x l1 <-> In x l2) -> l1 = l2.
Proof.
  revert l2. induction l1 as [|x t1 IH]; intros l2 H1 H2 Hsame.
  - destruct l2 as [|y t2]; [reflexivity|].
    destruct (proj2 (Hsame y)). now left.
  - destruct l2 as [|y t2]; [destruct (proj1 (Hsame x)); now left|].
    inversion H1 as [|? ? Hs1 Hall1]; subst.
    inversion H2 as [|? ? Hs2 Hall2]; subst.
    rewrite Forall_forall in Hall1, Hall2.
    assert (Hxy : x = y).
    { destruct (proj1 (Hsame x) (or_introl eq_refl)) as [E | Hx]; [auto|].
      destruct (proj2 (Hsame y) (or_introl eq_refl)) as [E | Hy]; [auto|].
      exfalso. apply (key_lt_asym x y); auto. }
    subst y. f_equal. apply IH; try assumption.
    intros z. split; intros Hz.
    + destruct (proj1 (Hsame z) (or_intror Hz)) as [E | Hz']; [|exact Hz'].
      subst z. exfalso. apply (key_lt_irrefl x). now apply Hall1.
    + destruct (proj2 (Hsame z) (or_intror Hz)) as [E | Hz']; [|exact Hz'].
      subst z. exfalso. apply (key_lt_irrefl x). now apply Hall2.
Qed.

Lemma frequency_perm (c : string) (a b : list Recipe) :
  Permutation a b -> frequency c a = frequency c b.
Proof.
  intros H. unfold frequency. f_equal.
  apply (Permutation_count_occ string_dec). now apply Permutation_map.
Qed.

(** X19: the report does not depend on the order of the recipes. *)
Theorem cuisine_report_order_free :
  forall a b : list Recipe,
    Permutation a b -> cuisine_report a = cuisine_report b.
Proof.
  intros a b Hperm.
  destruct (report_facts a) as [_ [Hsa Hina]].
  destruct (report_facts b) as [_ [Hsb Hinb]].
  apply strictly_sorted_unique; try assumption.
  intros [c n]. rewrite Hina, Hinb, (frequency_perm c a b Hperm). tauto.
Qed.

Lemma cuisine_report_order_free_witness :
  cuisine_report (rev (fst (create_sample_recipes 4 (fun n => n))))
  = cuisine_report (fst (create_sample_recipes 4 (fun n => n))).
Proof.
  apply cuisine_report_order_free. apply Permutation_sym, Permutation_rev.
Defined.

Lemma report_keys_cuisines (recipes : list Recipe) (c : string) :
  In c (keys (cuisine_report recipes)) -> In c (map cuisine recipes).
Proof.
  intros H. apply keys_In in H as [n Hin].
  apply (proj2 (proj2 (report_facts recipes))) in Hin as [Hpos ->].
  now apply frequency_positive.
Qed.

(** X20: the report has no more lines than there are recipes, every count
    is between 1 and the number of recipes, and the report is empty
    exactly when there is no recipe. *)
Theorem cuisine_report_size :
  forall recipes : list Recipe,
    let report := cuisine_report recipes in
    (List.length report <= List.length recipes)%nat
    /\ Forall (fun line => 1 <= snd line <= Z.of_nat (List.length recipes))
         report
    /\ (report = [] <-> recipes = []).
Proof.
  intros recipes report.
  destruct (report_facts recipes) as [Hnd [_ Hin]]. fold report in Hnd, Hin.
  split; [|split].
  - rewrite <- (length_map fst report), <- (length_map cuisine recipes).
    apply NoDup_incl_length; [exact Hnd|].
    intros c Hc. now apply report_keys_cuisines.
  - apply Forall_forall. intros [c n] Hline. cbn [snd].
    apply Hin in Hline as [Hpos ->]. split; [lia|].
    unfold frequency. rewrite <- (length_map cuisine recipes).
    apply inj_le, count_occ_bound.
  - split.
    + intros Hempty. destruct recipes as [|r recipes]; [reflexivity|].
      exfalso.
      assert (Hr : In (cuisine r, frequency (cuisine r) (r :: recipes)) report).
      { apply Hin. split; [|reflexivity].
        apply frequency_positive. simpl. auto. }
      rewrite Hempty in Hr. destruct Hr.
    + intros ->. reflexivity.
Qed.

Lemma cuisine_report_size_witness :
  fst (create_sample_recipes 0 (fun n => n)) = [].
Proof.
  apply (proj2 (proj2 (cuisine_report_size
                         (fst (create_sample_recipes 0 (fun n => n)))))).
  reflexivity.
Defined.

Lemma generated_report_bound (count : Z) (src : Rand.source) :
  (List.length (cuisine_report (fst (create_sample_recipes count src)))
   <= 6)%nat.
Proof.
  set (recipes := fst (create_sample_recipes count src)).
  destruct (report_facts recipes) as [Hnd _].
  rewrite <- (length_map fst (cuisine_report recipes)).
  change 6%nat with (List.length sample_cuisines).
  apply NoDup_incl_length; [exact Hnd|].
  intros c Hc. apply report_keys_cuisines in Hc.
  apply in_map_iff in Hc as [r [<- Hr]].
  pose proof (generated_Forall _ count src sample_recipe_labelled) as Hall.
  rewrite Forall_forall in Hall. now apply (Hall r).
Qed.

(** X21: the report of a generated collection has at most six lines,
    whatever the number of recipes and the random source. *)
Theorem generated_report_six_lines :
  forall (count : Z) (src : Rand.source),
    (List.length (cuisine_report (fst (create_sample_recipes count src)))
     <= 6)%nat.
Proof. exact generated_report_bound. Qed.

(** ** Keywords one by one *)

Lemma prefix_before_space (w x b : string) :
  PyStr.forallb (fun c => negb (Ascii.eqb c " ")) w = true ->
  prefix w (x ++ String " " b) = prefix w x.
Proof.
  revert w. induction x as [|d x IH]; intros w Hw.
  - destruct w as [|c w]; [reflexivity|].
    simpl in Hw. apply andb_true_iff in Hw as [Hc _].
    apply negb_true_iff, Ascii.eqb_neq in Hc. simpl.
    destruct (ascii_dec c " "); [contradiction | reflexivity].
  - destruct w as [|c w]; [reflexivity|].
    simpl in Hw. apply andb_true_iff in Hw as [_ Hw]. simpl.
    destruct (ascii_dec c d); [now apply IH | reflexivity].
Qed.

Lemma str_in_around_space (w a b : string) :
  PyStr.forallb (fun c => negb (Ascii.eqb c " ")) w = true ->
  str_in w (a ++ String " " b) = str_in w a || str_in w b.
Proof.
  intros Hw. induction a as [|c a IH].
  - change ("" ++ String " " b) with (String " " b).
    change (str_in w (String " " b))
      with (prefix w (String " " b) || str_in w b).
    change (str_in w "") with (prefix w "" || false).
    rewrite orb_false_r. f_equal. exact (prefix_before_space w "" b Hw).
  - change (String c a ++ String " " b) with (String c (a ++ String " " b)).
    change (str_in w (String c (a ++ String " " b)))
      with (prefix w (String c (a ++ String " " b))
            || str_in w (a ++ String " " b)).
    change (str_in w (String c a)) with (prefix w (String c a) || str_in w a).
    rewrite IH, <- orb_assoc. f_equal.
    exact (prefix_before_space w (String c a) b Hw).
Qed.

Lemma str_in_join (w : string) (l : list string) :
  one_word w -> str_in w (join " " l) = existsb (str_in w) l.
Proof.
  intros [Hne Hw]. unfold join. induction l as [|x l IH].
  - destruct w; [congruence | reflexivity].
  - destruct l as [|y l].
    + cbn [String.concat existsb]. now rewrite orb_false_r.
    + change (String.concat " " (x :: y :: l))
        with (x ++ String " " (String.concat " " (y :: l))).
      rewrite str_in_around_space by exact Hw. now rewrite IH.
Qed.

(** A keyword of one piece is in the search text exactly when it is in
    one of the lowercased keywords or in the lowercased name. *)
Lemma str_in_search_text (w : string) (keywords : list string)
  (name : string) :
  one_word w ->
  str_in w (search_text keywords name)
  = existsb (str_in w) (map lower keywords) || str_in w (lower name).
Proof.
  intros Hw. unfold search_text.
  change (" " ++ lower name) with (String " " (lower name)).
  rewrite str_in_around_space by apply Hw.
  unfold join. rewrite lower_concat. fold (join " " (map lower keywords)).
  now rewrite str_in_join.
Qed.

Lemma existsb_perm {A : Type} (f : A -> bool) (l l' : list A) :
  Permutation l l' -> existsb f l = existsb f l'.
Proof.
  induction 1 as [|x l l' _ IH|x y l|l l' l'' _ IH1 _ IH2]; simpl.
  - reflexivity.
  - now rewrite IH.
  - now rewrite !orb_assoc, (orb_comm (f y)).
  - congruence.
Qed.

Lemma any_in_pointwise (words : list string) (t t' : string) :
  (forall w, In w words -> str_in w t = str_in w t') ->
  any_in words t = any_in words t'.
Proof.
  unfold any_in. induction words as [|w words IH]; intros H; [reflexivity|].
  simpl. rewrite (H w) by (simpl; auto). f_equal. apply IH.
  intros w' Hw'. apply H. simpl; auto.
Qed.

Lemma any_in_keyword_order (words keywords keywords' : list string)
  (name : string) :
  Forall one_word words -> Permutation keywords keywords' ->
  any_in words (search_text keywords name)
  = any_in words (search_text keywords' name).
Proof.
  intros Hwords Hperm. apply any_in_pointwise. intros w Hw.
  rewrite Forall_forall in Hwords.
  rewrite !str_in_search_text by now apply Hwords.
  f_equal. apply existsb_perm. now apply Permutation_map.
Qed.

Lemma any_in_name_as_keyword (words keywords : list string) (name : string) :
  Forall one_word words ->
  any_in words (search_text keywords name)
  = any_in words (search_text (name :: keywords) "").
Proof.
  intros Hwords. apply any_in_pointwise. intros w Hw.
  rewrite Forall_forall in Hwords.
  rewrite !str_in_search_text by now apply Hwords.
  cbn [map existsb lower].
  assert (Hempty : str_in w "" = false).
  { destruct (Hwords w Hw) as [Hne _]. destruct w; [congruence|reflexivity]. }
  rewrite Hempty, orb_false_r. apply orb_comm.
Qed.

Lemma any_in_thai (t : string) :
  any_in ["thai"; "pad thai"; "curry thai"] t = any_in ["thai"] t.
Proof.
  unfold any_in. cbn [existsb].
  destruct (str_in "thai" t) eqn:E; [reflexivity|].
  assert (H1 : str_in "pad thai" t = false).
  { apply str_in_false. intros H. apply str_in_false in E. apply E.
    apply (occurs_longer "pad " "thai" ""). exact H. }
  assert (H2 : str_in "curry thai" t = false).
  { apply str_in_false. intros H. apply str_in_false in E. apply E.
    apply (occurs_longer "curry " "thai" ""). exact H. }
  now rewrite H1, H2.
Qed.

Ltac one_words :=
  repeat (constructor; [split; [discriminate | reflexivity]|]); constructor.

(** The cuisine from the five tests on the search text. *)
Lemma extract_cuisine_tests (keywords : list string) (name : string) :
  let text := search_text keywords name in
  extract_cuisine keywords name
  = if any_in ["indian"; "curry"; "masala"; "tandoori"; "biryani"] text
    then "indian"
    else if any_in ["chinese"; "szechuan"; "cantonese"; "wok"] text
    then "chinese"
    else if any_in ["italian"; "pasta"; "pizza"; "risotto"] text
    then "italian"
    else if any_in ["mexican"; "taco"; "burrito"; "enchilada"; "salsa"] text
    then "mexican"
    else if any_in ["thai"] text then "thai"
    else "international".
Proof.
  intros text. unfold extract_cuisine, cuisines. fold text.
  cbn [first_cuisine]. now rewrite any_in_thai.
Qed.

(** X22: the meal type and the cuisine do not depend on the order of the
    keywords, and the name counts as one more keyword; the dietary tags do
    depend on the order, since "gluten free" can be made of two
    keywords. *)
Theorem keyword_order :
  (forall (keywords keywords' : list string) (name : string),
      Permutation keywords keywords' ->
      determine_meal_type keywords name = determine_meal_type keywords' name
      /\ extract_cuisine keywords name = extract_cuisine keywords' name)
  /\ (forall (keywords : list string) (name : string),
         determine_meal_type keywords name
         = determine_meal_type (name :: keywords) ""
         /\ extract_cuisine keywords name
            = extract_cuisine (name :: keywords) "")
  /\ extract_dietary_tags [] ["gluten"; "free"]
     <> extract_dietary_tags [] ["free"; "gluten"].
Proof.
  split; [|split].
  - intros keywords keywords' name Hperm. split.
    + unfold determine_meal_type, breakfast_words, dinner_words, snack_words.
      cbv zeta.
      now rewrite !(any_in_keyword_order _ keywords keywords' name)
        by (one_words || exact Hperm).
    + rewrite !extract_cuisine_tests. cbv zeta.
      now rewrite !(any_in_keyword_order _ keywords keywords' name)
        by (one_words || exact Hperm).
  - intros keywords name. split.
    + unfold determine_meal_type, breakfast_words, dinner_words, snack_words.
      cbv zeta.
      now rewrite !(any_in_name_as_keyword _ keywords name) by one_words.
    + rewrite !extract_cuisine_tests. cbv zeta.
      now rewrite !(any_in_name_as_keyword _ keywords name) by one_words.
  - discriminate.
Qed.

Lemma keyword_order_witness :
  determine_meal_type ["easy"; "Dinner party"] "Waffles"
  = determine_meal_type ["Dinner party"; "easy"] "Waffles".
Proof.
  apply (proj1 keyword_order). apply perm_swap.
Defined.

(** ** The statistics of a run *)

Lemma report_sum (recipes : list Recipe) :
  sum_counts (cuisine_report recipes) = Z.of_nat (List.length recipes).
Proof.
  destruct (count_loop recipes []) as [_ [Hsum _]]; [constructor|].
  fold (count_cuisines recipes) in Hsum.
  destruct (sorted_spec (count_cuisines recipes)) as [_ Hperm].
  unfold cuisine_report. rewrite (sum_counts_perm _ _ Hperm), Hsum.
  simpl. lia.
Qed.

Lemma generated_length (count : Z) (src : Rand.source) :
  List.length (fst (create_sample_recipes count src)) = Z.to_nat count.
Proof.
  unfold create_sample_recipes.
  destruct (sample_loop_nth (Z.to_nat count) 0 [] src) as [fresh [-> [Hlen _]]].
  exact Hlen.
Qed.

Lemma report_nonempty (recipes : list Recipe) :
  recipes <> [] -> cuisine_report recipes <> [].
Proof.
  intros Hne Hempty. destruct recipes as [|r recipes]; [congruence|].
  assert (Hr : In (cuisine r, frequency (cuisine r) (r :: recipes))
                 (cuisine_report (r :: recipes))).
  { apply (proj2 (proj2 (report_facts (r :: recipes)))).
    split; [|reflexivity]. apply frequency_positive. simpl. auto. }
  rewrite Hempty in Hr. destruct Hr.
Qed.

(** X23: whatever the random draws, a run of [main] reports a total of 50
    recipes, and its lines by cuisine, between one and six of them in
    increasing order of the cuisine, carry counts that add up to 50. *)
Theorem main_statistics_fifty :
  forall src : Rand.source,
    fst (main_statistics src) = 50
    /\ sum_counts (snd (main_statistics src)) = 50
    /\ (1 <= List.length (snd (main_statistics src)) <= 6)%nat
    /\ StronglySorted key_lt (snd (main_statistics src)).
Proof.
  intros src. unfold main_statistics. cbv zeta. cbn [fst snd].
  set (recipes := fst (create_sample_recipes 50 src)).
  assert (Hlen : List.length recipes = Z.to_nat 50)
    by apply generated_length.
  split; [lia|]. split; [rewrite report_sum; lia|]. split.
  - split; [|apply generated_report_bound].
    assert (Hne : cuisine_report recipes <> []).
    { apply report_nonempty. intros E. rewrite E in Hlen. simpl in Hlen. lia. }
    destruct (cuisine_report recipes); [congruence | simpl; lia].
  - apply (report_facts recipes).
Qed.
